(** * BMW gear selector (GWS) diagnostics: DTC decoding and oracle-driven discovery

    A shallow embedding of [bmw_gear_selector/bmw_gws.py].  Python integers
    are [Z], byte strings and payload lists are [list Z], the DTC dictionary
    is an insertion-ordered association list keyed by the lowercase hex
    string of the 3-byte identifier, and everything that touches the CAN bus
    runs in a small monad that threads the state of the outside world,
    propagates Python exceptions and records the bus events it performs. *)

From Stdlib Require Import ZArith List String Ascii Bool Lia Permutation.
From Stdlib Require Import HexadecimalString DecimalString.
Import ListNotations.
Open Scope string_scope.
Open Scope list_scope.
Open Scope Z_scope.

Set Implicit Arguments.

(** ** Python values and exceptions *)

Inductive exn : Type :=
| RuntimeError (msg : string)
| IndexError (msg : string)
| TypeError (msg : string)
| AttributeError (msg : string)
| ValueError (msg : string)
| CanOperationError (msg : string).

Inductive result (A : Type) : Type :=
| Ok (a : A)
| Raise (e : exn).

Arguments Ok {A} a.
Arguments Raise {A} e.

Definition rbind {A B : Type} (r : result A) (k : A -> result B) : result B :=
  match r with
  | Ok a => k a
  | Raise e => Raise e
  end.

Notation "'try' x <- r ; k" := (rbind r (fun x => k))
  (at level 10, x name, r at level 100, k at level 200).

(** The value bound to [csum_dtc]: a status byte out of the table, or the
    default string handed to [dict.get]. *)
Inductive pyval : Type :=
| PInt (z : Z)
| PStr (s : string).

(** [a == n] and [a != n] for an integer literal [n]. *)
Definition py_eq_int (a : pyval) (n : Z) : bool :=
  match a with
  | PInt z => z =? n
  | PStr _ => false
  end.

Definition py_ne_int (a : pyval) (n : Z) : bool := negb (py_eq_int a n).

(** ** Sequences *)

Definition len {A : Type} (l : list A) : Z := Z.of_nat (List.length l).

(** [range(n)]; empty when [n <= 0]. *)
Definition range (n : Z) : list Z := map Z.of_nat (seq 0 (Z.to_nat n)).

(** [l[i]], negative indices counting from the end.  The text of the
    [IndexError] depends on the type of the sequence and plays no role. *)
Definition py_index (l : list Z) (i : Z) : result Z :=
  let j := if i <? 0 then i + len l else i in
  if (0 <=? j) && (j <? len l)
  then match nth_error l (Z.to_nat j) with
       | Some x => Ok x
       | None => Raise (IndexError "index out of range")
       end
  else Raise (IndexError "index out of range").

(** [l[a:b]] for [0 <= a <= b], as the decoder uses it. *)
Definition py_slice (l : list Z) (a b : Z) : list Z :=
  firstn (Z.to_nat (b - a)) (skipn (Z.to_nat a) l).

(** [l[i] = v] on a list, for an index in range. *)
Fixpoint list_set (l : list Z) (i : nat) (v : Z) : list Z :=
  match l, i with
  | [], _ => []
  | _ :: t, O => v :: t
  | h :: t, S i' => h :: list_set t i' v
  end.

Definition is_byte (b : Z) : bool := (0 <=? b) && (b <? 256).

(** ** Formatting *)

Definition hex_digit (d : Z) : ascii :=
  match d with
  | 0 => "0" | 1 => "1" | 2 => "2" | 3 => "3" | 4 => "4" | 5 => "5"
  | 6 => "6" | 7 => "7" | 8 => "8" | 9 => "9" | 10 => "a" | 11 => "b"
  | 12 => "c" | 13 => "d" | 14 => "e" | _ => "f"
  end%char.

(** [bytes.hex()]: two lowercase digits for each byte. *)
Fixpoint bytes_hex (bs : list Z) : string :=
  match bs with
  | [] => EmptyString
  | b :: t => String (hex_digit (b / 16)) (String (hex_digit (b mod 16)) (bytes_hex t))
  end.

(** The format spec [:#x] on an integer. *)
Definition format_hex (z : Z) : string :=
  let digits := HexadecimalString.NilZero.string_of_uint (N.to_hex_uint (Z.abs_N z)) in
  if z <? 0 then "-0x" ++ digits else "0x" ++ digits.

(** [str(z)] of an integer. *)
Definition format_dec (z : Z) : string :=
  let digits := DecimalString.NilZero.string_of_uint (N.to_uint (Z.abs_N z)) in
  if z <? 0 then "-" ++ digits else digits.

(** [:#x] is only defined for integers; on a [str] Python raises. *)
Definition format_hex_val (v : pyval) : result string :=
  match v with
  | PInt z => Ok (format_hex z)
  | PStr _ => Raise (ValueError "Unknown format code 'x' for object of type 'str'")
  end.

(** ** The DTC dictionary

    A Python [dict] keeps its keys in insertion order and an assignment to an
    existing key replaces the value in place. *)

Definition dict : Type := list (string * Z).

Fixpoint dict_set (k : string) (v : Z) (d : dict) : dict :=
  match d with
  | [] => [(k, v)]
  | (k', v') :: d' =>
      if String.eqb k' k then (k', v) :: d' else (k', v') :: dict_set k v d'
  end.

Fixpoint dict_lookup (k : string) (d : dict) : option Z :=
  match d with
  | [] => None
  | (k', v') :: d' => if String.eqb k' k then Some v' else dict_lookup k d'
  end.

Definition dict_keys (d : dict) : list string := map fst d.

(** [dtcs.get(key, default)], where [dtcs] may be [None]. *)
Definition py_get (dtcs : option dict) (key : string) (default : pyval) : result pyval :=
  match dtcs with
  | None => Raise (AttributeError "'NoneType' object has no attribute 'get'")
  | Some d =>
      Ok (match dict_lookup key d with
          | Some v => PInt v
          | None => default
          end)
  end.

(** ** The DTC decoder *)

(** One iteration of the loop of [decode_dtcdata]. *)
Definition decode_step (dtcdata : list Z) (dtcs : dict) (i : Z) : result dict :=
  let offs := 3 + i * 4 in
  let dtc := py_slice dtcdata offs (offs + 3) in
  try status <- py_index dtcdata (offs + 3);
  Ok (dict_set (bytes_hex dtc) status dtcs).

Fixpoint decode_loop (dtcdata : list Z) (dtcs : dict) (idxs : list Z) : result dict :=
  match idxs with
  | [] => Ok dtcs
  | i :: rest =>
      try dtcs' <- decode_step dtcdata dtcs i;
      decode_loop dtcdata dtcs' rest
  end.

(** [decode_dtcdata(dtcdata)]; the argument is [None] when the request that
    produced it timed out. *)
Definition decode_dtcdata (dtcdata : option (list Z)) : result dict :=
  match dtcdata with
  | None => Raise (TypeError "'NoneType' object is not subscriptable")
  | Some data =>
      try tag <- py_index data 0;
      if negb (tag =? 0x59)
      then Raise (RuntimeError ("Unexpected response tag " ++ format_hex tag))
      else if negb ((len data - 3) mod 4 =? 0)
      then Raise (RuntimeError ("Unexpected response length " ++ format_dec (len data)))
      else
        let num_dtcs := (len data - 3) / 4 in
        decode_loop data [] (range num_dtcs)
  end.

(** ** The checksum of message 0x3FD

    [BMW3FDCRC] derives from [crccheck.crc.Crc8Base] with polynomial [0x1D],
    initial value [0] and output xor [0x70]; bits are not reflected.  The
    functions below follow [process] and [final] of that base class for a
    width of 8: each byte is xored into the register, which is then shifted
    left eight times, xoring the polynomial in whenever bit 7 was set, and
    masked back to 8 bits. *)

Definition crc_poly : Z := 0x1D.
Definition crc_initvalue : Z := 0x0.
Definition crc_xor_output_3fd : Z := 0x70.

Definition crc_shift (crc : Z) : Z :=
  if negb (Z.land crc 0x80 =? 0)
  then Z.lxor (Z.shiftl crc 1) crc_poly
  else Z.shiftl crc 1.

Definition crc_process_byte (crc byte : Z) : Z :=
  let crc := Z.lxor crc byte in
  Z.land (Nat.iter 8 crc_shift crc) 0xFF.

Definition crc_calc (xor_output : Z) (data : list Z) : Z :=
  Z.lxor (fold_left crc_process_byte data crc_initvalue) xor_output.

Definition bmw_3fd_crc (message : list Z) : Z :=
  Z.land (crc_calc crc_xor_output_3fd message) 0xFF.

(** ** The bus and the diagnostic session *)

(** [can.Message(arbitration_id=..., data=..., is_extended_id=...)]. *)
Record can_message : Type := mk_message {
  arbitration_id : Z;
  data : list Z;
  is_extended_id : bool
}.

(** The constructor turns [data] into a [bytearray], which raises for an
    element outside [range(256)]. *)
Definition can_Message (arb : Z) (payload : list Z) (ext : bool) : result can_message :=
  if forallb is_byte payload
  then Ok (mk_message arb payload ext)
  else Raise (ValueError "byte must be in range(0, 256)").

(** What a run does to the outside world, in the order it does it. *)
Inductive event : Type :=
| Sent (m : can_message)
| Slept (ms : Z)
| Requested (req : list Z) (resp : option (list Z))
| Printed (line : string).

(** The external collaborators.  [bus_send] is [bus.send], which may raise;
    [time_sleep] lets the given number of milliseconds pass; [isotp_request]
    is one scoped diagnostic session with the gear selector
    ([ThreadedBmwIsoTp(bus, 0x5E, 0xF1).request(req, timeout=0.5)]), which
    yields the response or [None] when the timeout elapses. *)
Record Bus : Type := mk_bus {
  world : Type;
  bus_send : can_message -> world -> result unit * world;
  time_sleep : Z -> world -> world;
  isotp_request : list Z -> world -> option (list Z) * world
}.

Section Program.

Variable B : Bus.

Definition io (A : Type) : Type := world B -> result A * world B * list event.

Definition ret {A : Type} (a : A) : io A := fun w => (Ok a, w, []).

Definition raise {A : Type} (e : exn) : io A := fun w => (Raise e, w, []).

Definition bind {A C : Type} (m : io A) (k : A -> io C) : io C :=
  fun w =>
    match m w with
    | (Ok a, w1, ev1) =>
        match k a w1 with
        | (r, w2, ev2) => (r, w2, ev1 ++ ev2)
        end
    | (Raise e, w1, ev1) => (Raise e, w1, ev1)
    end.

Definition lift {A : Type} (r : result A) : io A := fun w => (r, w, []).

Definition send (m : can_message) : io unit :=
  fun w => let (r, w') := bus_send B m w in (r, w', [Sent m]).

Definition sleep (ms : Z) : io unit :=
  fun w => (Ok tt, time_sleep B ms w, [Slept ms]).

Definition print (line : string) : io unit :=
  fun w => (Ok tt, w, [Printed line]).

End Program.

Arguments ret {B A} a.
Arguments raise {B A} e.
Arguments bind {B A C} m k.
Arguments lift {B A} r.
Arguments print {B} line.

Notation "x <- m ;; k" := (bind m (fun x => k))
  (at level 61, m at next level, right associativity).
Notation "m ;; k" := (bind m (fun _ => k))
  (at level 61, right associativity).

(** [for x in l: body(x)]. *)
Fixpoint for_ {B : Bus} {A : Type} (l : list A) (body : A -> io B unit) : io B unit :=
  match l with
  | [] => ret tt
  | x :: rest => body x ;; for_ rest body
  end.

(** [for x in l: ...] whose body may [return]: [Some v] is a [return v]
    out of the enclosing function, [None] falls through to the next turn. *)
Fixpoint for_return {B : Bus} {A R : Type} (l : list A) (body : A -> io B (option R))
  : io B (option R) :=
  match l with
  | [] => ret None
  | x :: rest =>
      r <- body x ;;
      match r with
      | Some v => ret (Some v)
      | None => for_return rest body
      end
  end.

(** [l * n] on lists. *)
Definition list_times {A : Type} (l : list A) (n : nat) : list A :=
  List.concat (repeat l n).

(** [payload[i] = v]. *)
Definition py_setitem (l : list Z) (i v : Z) : result (list Z) :=
  let j := if i <? 0 then i + len l else i in
  if (0 <=? j) && (j <? len l)
  then Ok (list_set l (Z.to_nat j) v)
  else Raise (IndexError "list assignment index out of range").

Section Discovery.

Variable B : Bus.

Definition req_isotp (req : list Z) : io B (option (list Z)) :=
  fun w => let (r, w') := isotp_request B req w in (Ok r, w', [Requested req r]).

(** [get_dtcs(bus, status_mask)]; [None] is the value of falling off the
    end of the function. *)
Definition get_dtcs (status_mask : Z) : io B (option dict) :=
  for_return (range 3) (fun tries =>
    r <- req_isotp [0x19; 0x02; status_mask] ;;
    match r with
    | Some _ => dtcs <- lift (decode_dtcdata r) ;; ret (Some dtcs)
    | None => ret None
    end).

Definition get_supported_dtcs : io B dict :=
  r <- req_isotp [0x19; 0x0A] ;;
  lift (decode_dtcdata r).

Definition verify_checksum (payload : list Z) : io B bool :=
  message <- lift (can_Message 0x3FD payload false) ;;
  for_ (range 16) (fun _ => send B message ;; sleep B 10) ;;
  sleep B 100 ;;
  dtcs <- get_dtcs 0x0C ;;
  csum_dtc <- lift (py_get dtcs "e09404" (PStr "missing")) ;;
  ret (py_eq_int csum_dtc 0x2e).

Definition find_checksum (message : list Z) : io B Z :=
  (if negb (len message =? 4)
   then print "WARNING: Expected 4 byte message"
   else ret tt) ;;
  r <- for_return (range 0x100) (fun chksum =>
         valid <- verify_checksum ([chksum] ++ message) ;;
         ret (if valid then Some chksum else None)) ;;
  match r with
  | Some chksum => ret chksum
  | None => raise (RuntimeError "No valid checksum found...")
  end.

Definition confirm_working_checksum (message : list Z) : io B bool :=
  verify_checksum ([bmw_3fd_crc message] ++ message).

(** The three bit-field shapes tried at each byte position. *)
Definition counter_shapes : list (Z * Z) := [(0xFF, 0); (0x0F, 4); (0x0F, 0)].

(** The frame sent for one counter value. *)
Definition counter_frame (byte shift counter : Z) : io B unit :=
  let payload := [0xFF; 0xFF; 0xFF; 0xFF] in
  payload <- lift (py_setitem payload byte (Z.shiftl counter shift)) ;;
  let payload := [bmw_3fd_crc payload] ++ payload in
  message <- lift (can_Message 0x3FD payload false) ;;
  send B message ;;
  sleep B 10.

(** The body of the two outer loops of [find_counter_fields]. *)
Definition counter_trial (byte : Z) (shape : Z * Z) : io B unit :=
  let '(mask, shift) := shape in
  for_ (list_times (range (mask + 1)) 4) (counter_frame byte shift) ;;
  sleep B 100 ;;
  dtcs <- get_dtcs 0x0C ;;
  csum_dtc <- lift (py_get dtcs "e09402" (PStr "missing")) ;;
  if py_ne_int csum_dtc 0x2f
  then
    print ("Counter byte " ++ format_dec byte ++ " mask "
           ++ format_hex (Z.shiftl mask shift)) ;;
    status <- lift (format_hex_val csum_dtc) ;;
    print ("   E09402 -> " ++ status)
  else ret tt.

Definition find_counter_fields : io B unit :=
  for_ (range 4) (fun byte =>
    for_ counter_shapes (fun shape => counter_trial byte shape)).

End Discovery.

(** ** Test doubles for the bus

    A double remembers the payload of the last frame it was sent and counts
    the sends and the diagnostic requests it has seen.  [send_fails] says
    which sends raise (by the number of sends before it); [answer] gives the
    response to a diagnostic request from what the double remembers. *)

Record double_state : Type := mk_double {
  last_frame : option (list Z);
  sends : nat;
  requests : nat
}.

Definition double_init : double_state := mk_double None 0 0.

Definition double (send_fails : nat -> bool)
    (answer : option (list Z) -> nat -> list Z -> option (list Z)) : Bus :=
  {| world := double_state;
     bus_send := fun m w =>
       if send_fails (sends w)
       then (Raise (CanOperationError "Failed to transmit"),
             mk_double (last_frame w) (S (sends w)) (requests w))
       else (Ok tt, mk_double (Some (data m)) (S (sends w)) (requests w));
     time_sleep := fun _ w => w;
     isotp_request := fun req w =>
       (answer (last_frame w) (requests w) req,
        mk_double (last_frame w) (sends w) (S (requests w))) |}.

(** A positive response to service 0x19 0x02 carrying one DTC. *)
Definition one_dtc_response (id0 id1 id2 status : Z) : list Z :=
  [0x59; 0x02; 0xff; id0; id1; id2; status].

Definition frame_is (expected : list Z) (last : option (list Z)) : bool :=
  match last with
  | Some f => if list_eq_dec Z.eq_dec f expected then true else false
  | None => false
  end.

(** The gear selector of the end-to-end scenario: DTC e09404 is 0x2f unless
    the last frame was [0x37, 0x01, 0x02, 0x03, 0x04], when it is 0x2e. *)
Definition scenario_bus : Bus :=
  double (fun _ => false) (fun last _ _ =>
    Some (one_dtc_response 0xe0 0x94 0x04
            (if frame_is [0x37; 0x01; 0x02; 0x03; 0x04] last then 0x2e else 0x2f))).

(** A gear selector that never accepts a checksum. *)
Definition stubborn_bus : Bus :=
  double (fun _ => false) (fun _ _ _ => Some (one_dtc_response 0xe0 0x94 0x04 0x2f)).

(** A gear selector that never answers a diagnostic request. *)
Definition silent_bus : Bus :=
  double (fun _ => false) (fun _ _ _ => None).

(** A gear selector that answers from the [n]-th request on (counting from 0). *)
Definition late_bus (n : nat) : Bus :=
  double (fun _ => false) (fun _ k _ =>
    if Nat.leb n k then Some (one_dtc_response 0xe0 0x94 0x04 0x2f) else None).

(** A bus whose [n]-th send (counting from 0) raises. *)
Definition faulty_bus (n : nat) : Bus :=
  double (fun k => Nat.eqb k n) (fun _ _ _ => Some (one_dtc_response 0xe0 0x94 0x04 0x2f)).

(** A gear selector whose counter DTC e09402 degrades to 0x2c once the last
    frame it saw carries [0xf0] in its second data byte. *)
Definition counter_bus : Bus :=
  double (fun _ => false) (fun last _ _ =>
    Some (one_dtc_response 0xe0 0x94 0x02
            (match last with
             | Some (_ :: _ :: 0xf0 :: _) => 0x2c
             | _ => 0x2f
             end))).

(** ** The layout of a DTC response

    A record is a 3-byte identifier and a status byte; a response to service
    0x19 is the positive-response tag 0x59, two more header bytes, and the
    records one after the other. *)

Record dtc_record : Type := mk_record {
  rec_id : Z * Z * Z;
  rec_status : Z
}.

Definition id_bytes (id : Z * Z * Z) : list Z :=
  let '(a, b, c) := id in [a; b; c].

Definition encode_record (r : dtc_record) : list Z :=
  id_bytes (rec_id r) ++ [rec_status r].

Definition encode_response (h1 h2 : Z) (recs : list dtc_record) : list Z :=
  [0x59; h1; h2] ++ flat_map encode_record recs.

(** The dictionary key of an identifier. *)
Definition dtc_key (id : Z * Z * Z) : string := bytes_hex (id_bytes id).

Definition id_in_range (id : Z * Z * Z) : Prop :=
  let '(a, b, c) := id in
  (0 <= a < 256) /\ (0 <= b < 256) /\ (0 <= c < 256).

(** The table a list of records builds, one assignment per record. *)
Definition table_of (recs : list dtc_record) (d : dict) : dict :=
  fold_left (fun d r => dict_set (dtc_key (rec_id r)) (rec_status r) d) recs d.

(** The elements of a list in the order of their first occurrence. *)
Definition first_occurrences (l : list string) : list string :=
  rev (nodup string_dec (rev l)).

(** The decoder's own failure, as opposed to one of the interpreter's. *)
Definition MalformedResponse (r : result dict) : Prop :=
  exists msg, r = Raise (RuntimeError msg).

Definition value_of_hex_digit (c : ascii) : Z :=
  match c with
  | "0" => 0 | "1" => 1 | "2" => 2 | "3" => 3 | "4" => 4 | "5" => 5
  | "6" => 6 | "7" => 7 | "8" => 8 | "9" => 9 | "a" => 10 | "b" => 11
  | "c" => 12 | "d" => 13 | "e" => 14 | _ => 15
  end%char.

Definition id_eq_dec (i j : Z * Z * Z) : {i = j} + {i <> j}.
Proof. repeat decide equality. Defined.

Definition ids_in_range (recs : list dtc_record) : Prop :=
  Forall (fun r => id_in_range (rec_id r)) recs.

(** ** Runs of the bus

    What the statements below say about a run is phrased with the world the
    bus is left in: after a series of frames was sent without a send raising,
    and after a series of diagnostic requests went unanswered. *)

Section Runs.

Variable B : Bus.

(** The world after [frames] were sent one after the other, 10 ms apart;
    [None] when one of the sends raises. *)
Fixpoint after_frames (frames : list can_message) (w : world B) : option (world B) :=
  match frames with
  | [] => Some w
  | m :: rest =>
      match bus_send B m w with
      | (Ok _, w') => after_frames rest (time_sleep B 10 w')
      | (Raise _, _) => None
      end
  end.

(** The world after [k] requests in a row timed out; [None] when one of
    them is answered. *)
Fixpoint unanswered (req : list Z) (k : nat) (w : world B) : option (world B) :=
  match k with
  | O => Some w
  | S k' =>
      match isotp_request B req w with
      | (None, w') => unanswered req k' w'
      | (Some _, _) => None
      end
  end.

End Runs.

(** The events of sending [frames] one after the other, 10 ms apart. *)
Definition frame_events (frames : list can_message) : list event :=
  flat_map (fun m => [Sent m; Slept 10]) frames.

(** The payloads of the frames sent during a run, in order. *)
Definition sent_payloads (evs : list event) : list (list Z) :=
  flat_map (fun e => match e with Sent m => [data m] | _ => [] end) evs.

Definition count_sent (evs : list event) : nat := List.length (sent_payloads evs).

Definition count_requested (evs : list event) : nat :=
  List.length (filter (fun e => match e with Requested _ _ => true | _ => false end) evs).

(** What [verify_checksum] makes of the value [get_dtcs] hands it. *)
Definition checksum_verdict (dtcs : result (option dict)) : result bool :=
  try dtcs <- dtcs;
  try csum_dtc <- py_get dtcs "e09404" (PStr "missing");
  Ok (py_eq_int csum_dtc 0x2e).

(** ** The hypotheses of the counter search *)

(** The payload for one counter value: the body is four bytes 0xFF with the
    byte at position [byte] replaced by the shifted counter, and the first
    byte of the frame is the checksum of the body. *)
Definition counter_body (byte shift counter : Z) : list Z :=
  list_set [0xFF; 0xFF; 0xFF; 0xFF] (Z.to_nat byte) (Z.shiftl counter shift).

Definition counter_message (byte shift counter : Z) : can_message :=
  let body := counter_body byte shift counter in
  mk_message 0x3FD (bmw_3fd_crc body :: body) false.

(** The full range of a field of mask [mask], four times in a row. *)
Definition counter_cycle (mask : Z) : list Z := list_times (range (mask + 1)) 4.

Definition counter_messages (byte : Z) (shape : Z * Z) : list can_message :=
  map (counter_message byte (snd shape)) (counter_cycle (fst shape)).

Definition full_byte : Z * Z := (0xFF, 0).
Definition upper_nibble : Z * Z := (0x0F, 4).
Definition lower_nibble : Z * Z := (0x0F, 0).

(** The twelve hypotheses, in the order in which they are tried. *)
Definition counter_hypotheses : list (Z * (Z * Z)) :=
  [(0, full_byte); (0, upper_nibble); (0, lower_nibble);
   (1, full_byte); (1, upper_nibble); (1, lower_nibble);
   (2, full_byte); (2, upper_nibble); (2, lower_nibble);
   (3, full_byte); (3, upper_nibble); (3, lower_nibble)].

(** The two lines printed for a hypothesis whose DTC reads [status]. *)
Definition counter_report (byte : Z) (shape : Z * Z) (status : Z) : list event :=
  [Printed ("Counter byte " ++ format_dec byte ++ " mask "
            ++ format_hex (Z.shiftl (fst shape) (snd shape)));
   Printed ("   E09402 -> " ++ format_hex status)].

(** What a trial of the counter search ends in, and what it prints, given the
    value [get_dtcs] hands it. *)
Definition counter_outcome (byte : Z) (shape : Z * Z) (dtcs : result (option dict))
  : result unit * list event :=
  match dtcs with
  | Raise e => (Raise e, [])
  | Ok None => (Raise (AttributeError "'NoneType' object has no attribute 'get'"), [])
  | Ok (Some table) =>
      match dict_lookup "e09402" table with
      | Some status =>
          (Ok tt, if status =? 0x2f then [] else counter_report byte shape status)
      | None =>
          (Raise (ValueError "Unknown format code 'x' for object of type 'str'"),
           [Printed ("Counter byte " ++ format_dec byte ++ " mask "
                     ++ format_hex (Z.shiftl (fst shape) (snd shape)))])
      end
  end.

(** The world and the events after [verify_checksum] has turned down each
    of the candidates [cands] in a row for the body [message]; [None] when one
    of them is accepted or a run raises. *)
Fixpoint rejected (B : Bus) (message cands : list Z) (w : world B)
  : option (world B * list event) :=
  match cands with
  | [] => Some (w, [])
  | c :: rest =>
      match verify_checksum B (c :: message) w with
      | (Ok false, w', ev) =>
          match rejected B message rest w' with
          | Some (w'', ev') => Some (w'', ev ++ ev')
          | None => None
          end
      | _ => None
      end
  end.

(** One turn of the loop of [find_checksum]. *)
Definition try_candidate (B : Bus) (message : list Z) (chksum : Z) : io B (option Z) :=
  valid <- verify_checksum B ([chksum] ++ message) ;;
  ret (if valid then Some chksum else None).


(** ** Reading a table back into records *)

Definition byte_of_hex (hi lo : ascii) : Z :=
  16 * value_of_hex_digit hi + value_of_hex_digit lo.

(** The identifier a 6-digit key stands for. *)
Definition id_of_key (k : string) : Z * Z * Z :=
  match k with
  | String a1 (String a2 (String b1 (String b2 (String c1 (String c2 _))))) =>
      (byte_of_hex a1 a2, byte_of_hex b1 b2, byte_of_hex c1 c2)
  | _ => (0, 0, 0)
  end.

(** The records a table lists, entry by entry. *)
Definition table_records (table : dict) : list dtc_record :=
  map (fun kv => mk_record (id_of_key (fst kv)) (snd kv)) table.

Definition is_hex_char (c : ascii) : bool :=
  match c with
  | "0" | "1" | "2" | "3" | "4" | "5" | "6" | "7" | "8" | "9"
  | "a" | "b" | "c" | "d" | "e" | "f" => true
  | _ => false
  end%char.

Fixpoint all_hex (k : string) : bool :=
  match k with
  | EmptyString => true
  | String c rest => is_hex_char c && all_hex rest
  end.

(** Six lowercase hexadecimal digits. *)
Definition is_dtc_key (k : string) : bool :=
  Nat.eqb (String.length k) 6 && all_hex k.

Definition all_bytes (l : list Z) : Prop := Forall (fun b => 0 <= b < 256) l.


(** ** The checksum of message 0x197

    [BMW197CRC] is the same CRC as [BMW3FDCRC] with output xor [0x53]. *)

Definition crc_xor_output_197 : Z := 0x53.

Definition bmw_197_crc (message : list Z) : Z :=
  Z.land (crc_calc crc_xor_output_197 message) 0xFF.

(** The register after [data] was processed, before the output xor. *)
Definition crc_register (data : list Z) : Z :=
  fold_left crc_process_byte data crc_initvalue.

(** What processing a byte does to the xor of register and byte. *)
Definition crc_byte_map (x : Z) : Z := Z.land (Nat.iter 8 crc_shift x) 0xFF.


(** A gear selector that answers every request with a negative response. *)
Definition negative_bus : Bus :=
  double (fun _ => false) (fun _ _ _ => Some [0x7f; 0x19; 0x31]).

(** What the search loop of [find_checksum] hands to its last statement. *)
Definition search_result (r : result (option Z)) : result Z :=
  match r with
  | Ok (Some chksum) => Ok chksum
  | Ok None => Raise (RuntimeError "No valid checksum found...")
  | Raise e => Raise e
  end.


(** ** The other bus functions of the module *)

Section MoreDiscovery.

Variable B : Bus.

(** [str(message)] as python-can renders a frame; its layout plays no role. *)
Variable message_str : can_message -> string.

Definition hard_reset : io B (option (list Z)) := req_isotp B [0x11; 0x01].

(** The body of the three loops of [search_valid_checksums]. *)
Definition search_probe (base offs byte : Z) : io B unit :=
  let payload := list_times [base] 8 in
  payload <- lift (py_setitem payload offs byte) ;;
  message <- lift (can_Message 0x3FD payload false) ;;
  for_ (range 16) (fun _ => send B message ;; sleep B 10) ;;
  sleep B 100 ;;
  dtcs <- get_dtcs B 0x0C ;;
  csum_dtc <- lift (py_get dtcs "e09404" (PStr "missing")) ;;
  if py_ne_int csum_dtc 0x2f
  then
    print ("Message " ++ message_str message) ;;
    status <- lift (format_hex_val csum_dtc) ;;
    print ("   E09404 -> " ++ status)
  else ret tt.

Definition search_valid_checksums : io B unit :=
  for_ (range 255) (fun base =>
    print ("Base bytes " ++ format_hex base) ;;
    for_ (range 8) (fun offs =>
      print ("Changing offset " ++ format_dec offs) ;;
      for_ (range 255) (fun byte => search_probe base offs byte))).

End MoreDiscovery.

(** Every event of every run of [m] satisfies [P]. *)
Definition emits {B : Bus} {A : Type} (P : event -> Prop) (m : io B A) : Prop :=
  forall w, Forall P (snd (m w)).


(** A diagnostic request and nothing else. *)
Definition is_request (e : event) : Prop :=
  match e with
  | Requested _ _ => True
  | _ => False
  end.

(** A frame of 8 data bytes none of which is 0xFF. *)
Definition junk_frame (e : event) : Prop :=
  match e with
  | Sent m => List.length (data m) = 8%nat /\ Forall (fun b => 0 <= b < 255) (data m)
  | _ => True
  end.


(** The payload of one probe of the junk search. *)
Definition junk_payload (base offs byte : Z) : list Z :=
  list_set [base; base; base; base; base; base; base; base] (Z.to_nat offs) byte.

(** What a probe of the junk search ends in, and what it prints, given the
    value [get_dtcs] hands it. *)
Definition probe_outcome (message_line : string) (dtcs : result (option dict))
  : result unit * list event :=
  match dtcs with
  | Raise e => (Raise e, [])
  | Ok None => (Raise (AttributeError "'NoneType' object has no attribute 'get'"), [])
  | Ok (Some table) =>
      match dict_lookup "e09404" table with
      | Some status =>
          (Ok tt,
           if status =? 0x2f then []
           else [Printed message_line; Printed ("   E09404 -> " ++ format_hex status)])
      | None =>
          (Raise (ValueError "Unknown format code 'x' for object of type 'str'"),
           [Printed message_line])
      end
  end.


Definition frame_has_crc (last : option (list Z)) : bool :=
  match last with
  | Some (c :: body) => c =? bmw_3fd_crc body
  | _ => false
  end.

(** A gear selector that checks the checksum: DTC e09404 is 0x2e when the
    first byte of the last frame is the [bmw_3fd_crc] of the rest, and 0x2f
    otherwise. *)
Definition crc_bus : Bus :=
  double (fun _ => false) (fun last _ _ =>
    Some (one_dtc_response 0xe0 0x94 0x04 (if frame_has_crc last then 0x2e else 0x2f))).

(** ** The status message of [send_gws_status]

    The counter arithmetic and the frame of one turn of its loop; the loop
    itself runs against the wall clock. *)

(** [counter += 1], and once more when the low nibble has become 0xF. *)
Definition gws_next_counter (counter : Z) : Z :=
  let counter := counter + 1 in
  if Z.land counter 0x0F =? 0xF then counter + 1 else counter.

(** The counter at the start of turn [n] of the loop. *)
Definition gws_counter (n : nat) : Z := Nat.iter n gws_next_counter 0.

Definition gws_payload (counter : Z) (status_bytes : list Z) : list Z :=
  let payload := [Z.land counter 0xFF] ++ status_bytes in
  [bmw_3fd_crc payload] ++ payload.

(** ** The identifiers of a diagnostic session

    [ThreadedBmwIsoTp.__init__] receives on [0x600 | target_address] and
    sends on [0x600 | source_address]. *)


(** * Properties *)

(** ** Sequences *)

Lemma len_app {A : Type} (l1 l2 : list A) : len (l1 ++ l2) = len l1 + len l2.
Proof. unfold len. rewrite length_app. lia. Qed.

Lemma len_nonneg {A : Type} (l : list A) : 0 <= len l.
Proof. unfold len. lia. Qed.

Lemma range_length (n : Z) : List.length (range n) = Z.to_nat n.
Proof. unfold range. now rewrite length_map, length_seq. Qed.

Lemma range_of_nat (n : nat) : range (Z.of_nat n) = map Z.of_nat (seq 0 n).
Proof. unfold range. now rewrite Nat2Z.id. Qed.

Lemma py_index_middle (pre post : list Z) (x : Z) :
  py_index (pre ++ x :: post) (len pre) = Ok x.
Proof.
  unfold py_index.
  pose proof (len_nonneg pre) as Hpre. pose proof (len_nonneg post) as Hpost.
  replace (len pre <? 0) with false by (symmetry; apply Z.ltb_ge; lia).
  rewrite len_app.
  replace (len (x :: post)) with (1 + len post) by (unfold len; simpl List.length; lia).
  replace (0 <=? len pre) with true by (symmetry; apply Z.leb_le; lia).
  replace (len pre <? len pre + (1 + len post)) with true
    by (symmetry; apply Z.ltb_lt; lia).
  simpl andb. unfold len. rewrite Nat2Z.id.
  rewrite nth_error_app2 by lia. now rewrite Nat.sub_diag.
Qed.

Lemma py_slice_middle (pre xs post : list Z) (a b : Z) :
  a = len pre -> b = a + len xs ->
  py_slice (pre ++ xs ++ post) a b = xs.
Proof.
  intros -> ->. unfold py_slice.
  replace (len pre + len xs - len pre) with (len xs) by lia.
  unfold len. rewrite !Nat2Z.id.
  rewrite skipn_app, skipn_all, Nat.sub_diag. simpl.
  rewrite firstn_app, firstn_all, Nat.sub_diag. simpl. apply app_nil_r.
Qed.

(** ** The decoder on an encoded response *)

Lemma encode_record_length (r : dtc_record) : len (encode_record r) = 4.
Proof. destruct r as [[[a b] c] s]. reflexivity. Qed.

Lemma encode_records_length (recs : list dtc_record) :
  len (flat_map encode_record recs) = 4 * len recs.
Proof.
  induction recs as [|r recs IH].
  - reflexivity.
  - cbn [flat_map]. rewrite len_app, encode_record_length, IH.
    unfold len. simpl List.length. lia.
Qed.

Lemma encode_response_length (h1 h2 : Z) (recs : list dtc_record) :
  len (encode_response h1 h2 recs) = 3 + 4 * len recs.
Proof.
  unfold encode_response. rewrite len_app, encode_records_length. reflexivity.
Qed.

Lemma decode_step_encoded (hdr : list Z) (done rest : list dtc_record)
    (r : dtc_record) (dtcs : dict) :
  len hdr = 3 ->
  decode_step (hdr ++ flat_map encode_record (done ++ r :: rest)) dtcs (len done)
  = Ok (dict_set (dtc_key (rec_id r)) (rec_status r) dtcs).
Proof.
  intros Hhdr. unfold decode_step.
  rewrite flat_map_app. cbn [flat_map].
  set (pre := hdr ++ flat_map encode_record done).
  assert (Hpre : len pre = 3 + len done * 4).
  { unfold pre. rewrite len_app, encode_records_length. lia. }
  destruct r as [[[a b] c] s].
  change (encode_record (mk_record (a, b, c) s)) with ([a; b; c] ++ [s]).
  unfold dtc_key. cbn [rec_id rec_status id_bytes].
  replace (hdr ++ flat_map encode_record done ++ ([a; b; c] ++ [s]) ++ flat_map encode_record rest)
    with (pre ++ [a; b; c] ++ (s :: flat_map encode_record rest))
    by (unfold pre; rewrite <- !app_assoc; reflexivity).
  rewrite (@py_slice_middle pre [a; b; c]) by (rewrite ?Hpre; reflexivity).
  replace (pre ++ [a; b; c] ++ s :: flat_map encode_record rest)
    with ((pre ++ [a; b; c]) ++ s :: flat_map encode_record rest)
    by (rewrite <- app_assoc; reflexivity).
  replace (3 + len done * 4 + 3) with (len (pre ++ [a; b; c]))
    by (rewrite len_app, Hpre; reflexivity).
  rewrite py_index_middle. reflexivity.
Qed.

Lemma decode_loop_encoded (hdr : list Z) (rest done : list dtc_record) (dtcs : dict) :
  len hdr = 3 ->
  decode_loop (hdr ++ flat_map encode_record (done ++ rest)) dtcs
    (map Z.of_nat (seq (List.length done) (List.length rest)))
  = Ok (table_of rest dtcs).
Proof.
  intros Hhdr. revert done dtcs.
  induction rest as [|r rest IH]; intros done dtcs.
  - reflexivity.
  - cbn [List.length seq map decode_loop].
    fold (len done). rewrite decode_step_encoded by assumption.
    cbn [rbind table_of fold_left].
    specialize (IH (done ++ [r]) (dict_set (dtc_key (rec_id r)) (rec_status r) dtcs)).
    rewrite <- app_assoc in IH. cbn [app] in IH.
    rewrite length_app, Nat.add_1_r in IH. exact IH.
Qed.

(** Decoding an encoded response performs one dictionary assignment per
    record, in the order of the records. *)
Lemma decode_encode (h1 h2 : Z) (recs : list dtc_record) :
  decode_dtcdata (Some (encode_response h1 h2 recs)) = Ok (table_of recs []).
Proof.
  unfold decode_dtcdata.
  rewrite encode_response_length.
  change (py_index (encode_response h1 h2 recs) 0) with (Ok 0x59).
  cbn [rbind]. change (negb (0x59 =? 0x59)) with false. cbv iota.
  replace (3 + 4 * len recs - 3) with (len recs * 4) by lia.
  rewrite Z.mod_mul, Z.div_mul by lia.
  change (negb (0 =? 0)) with false. cbv iota zeta.
  unfold len at 1. rewrite range_of_nat.
  apply (@decode_loop_encoded [0x59; h1; h2] recs []). reflexivity.
Qed.

(** Every body of [4 * n] bytes is a sequence of [n] records. *)
Lemma body_records (n : nat) :
  forall body : list Z, List.length body = (4 * n)%nat ->
  exists recs, body = flat_map encode_record recs /\ List.length recs = n.
Proof.
  induction n as [|n IH]; intros body Hlen.
  - destruct body; [|discriminate]. now exists [].
  - destruct body as [|a [|b [|c [|s body]]]]; simpl in Hlen; try lia.
    destruct (IH body) as (recs & -> & Hn); [lia|].
    exists (mk_record (a, b, c) s :: recs). split; [reflexivity|]. simpl. now rewrite Hn.
Qed.

Lemma well_formed_is_encoded (data : list Z) :
  hd_error data = Some 0x59 -> (len data - 3) mod 4 = 0 ->
  exists h1 h2 recs, data = encode_response h1 h2 recs.
Proof.
  intros Hhd Hmod.
  destruct data as [|t [|h1 [|h2 body]]]; try discriminate.
  simpl in Hhd. injection Hhd as ->.
  assert (Hlen : len (0x59 :: h1 :: h2 :: body) - 3 = len body).
  { unfold len. simpl List.length. lia. }
  rewrite Hlen in Hmod.
  destruct (@body_records (Z.to_nat (len body / 4)) body) as (recs & -> & _).
  - pose proof (len_nonneg body). apply Nat2Z.inj.
    rewrite Nat2Z.inj_mul, Z2Nat.id by (apply Z.div_pos; lia).
    fold (len body). change (Z.of_nat 4) with 4.
    pose proof (Z.div_mod (len body) 4). lia.
  - now exists h1, h2, recs.
Qed.

(** The four ways a call of the decoder on a byte sequence can end. *)
Lemma decode_cases (data : list Z) :
  (data = [] /\ decode_dtcdata (Some data) = Raise (IndexError "index out of range"))
  \/ (exists tag rest, data = tag :: rest /\ tag <> 0x59 /\
        decode_dtcdata (Some data)
        = Raise (RuntimeError ("Unexpected response tag " ++ format_hex tag)))
  \/ (exists rest, data = 0x59 :: rest /\ (len data - 3) mod 4 <> 0 /\
        decode_dtcdata (Some data)
        = Raise (RuntimeError ("Unexpected response length " ++ format_dec (len data))))
  \/ (exists h1 h2 recs, data = encode_response h1 h2 recs /\
        decode_dtcdata (Some data) = Ok (table_of recs [])).
Proof.
  destruct data as [|tag rest].
  - left. split; reflexivity.
  - right.
    assert (Hidx : py_index (tag :: rest) 0 = Ok tag).
    { apply (@py_index_middle [] rest tag). }
    destruct (Z.eq_dec tag 0x59) as [->|Hne].
    + right.
      destruct (Z.eq_dec ((len (0x59 :: rest) - 3) mod 4) 0) as [Hmod|Hmod].
      * right. destruct (@well_formed_is_encoded (0x59 :: rest)) as (h1 & h2 & recs & E);
          [reflexivity|assumption|].
        exists h1, h2, recs. split; [assumption|]. rewrite E. apply decode_encode.
      * left. exists rest. split; [reflexivity|]. split; [assumption|].
        unfold decode_dtcdata. rewrite Hidx. cbn [rbind].
        change (negb (0x59 =? 0x59)) with false. cbv iota.
        apply Z.eqb_neq in Hmod. now rewrite Hmod.
    + left. exists tag, rest. split; [reflexivity|]. split; [assumption|].
      unfold decode_dtcdata. rewrite Hidx. cbn [rbind].
      apply Z.eqb_neq in Hne. now rewrite Hne.
Qed.

(** With no output xor the polynomial 0x1D and initial value 0 give the
    catalogued check value 0x37 for the ASCII digits 1 to 9. *)
Example crc_check_value :
  crc_calc 0 [0x31; 0x32; 0x33; 0x34; 0x35; 0x36; 0x37; 0x38; 0x39] = 0x37.
Proof. reflexivity. Qed.

Example decode_two :
  decode_dtcdata (Some [0x59; 0x02; 0xff; 0xe0; 0x94; 0x04; 0x2f; 0xe0; 0x94; 0x02; 0x2c])
  = Ok [("e09404", 0x2f); ("e09402", 0x2c)].
Proof. reflexivity. Qed.

Example decode_header_only : decode_dtcdata (Some [0x59; 0x02; 0xff]) = Ok [].
Proof. reflexivity. Qed.

Example decode_short :
  decode_dtcdata (Some [0x59]) = Raise (RuntimeError "Unexpected response length 1").
Proof. reflexivity. Qed.

Example decode_bad_tag :
  decode_dtcdata (Some [0x7f; 0x19; 0x31])
  = Raise (RuntimeError "Unexpected response tag 0x7f").
Proof. reflexivity. Qed.

(** C4, as the code has it: the decoder fails, and returns no table, exactly
    when the input is empty, or its first byte is not 0x59, or its length
    minus the 3-byte header is not a multiple of 4.  On a non-empty input the
    failure is the decoder's own malformed-response error; on the empty input
    it is the index error of reading the first byte.  Every input of 3 header
    bytes and a body of length 1 to 50 that is not a multiple of 4 is
    rejected with the malformed-response error. *)
Theorem decode_dtcdata_failure (data : list Z) :
  ((exists e, decode_dtcdata (Some data) = Raise e) <->
     (data = [] \/ hd_error data <> Some 0x59 \/ (len data - 3) mod 4 <> 0))
  /\ (MalformedResponse (decode_dtcdata (Some data)) <->
        (data <> [] /\ (hd_error data <> Some 0x59 \/ (len data - 3) mod 4 <> 0)))
  /\ ((exists msg, decode_dtcdata (Some data) = Raise (IndexError msg)) <-> data = [])
  /\ (forall hdr body : list Z,
        data = hdr ++ body -> len hdr = 3 ->
        1 <= len body <= 50 -> len body mod 4 <> 0 ->
        MalformedResponse (decode_dtcdata (Some data))).
Proof.
  assert (Hwf : forall h1 h2 recs,
             (len (encode_response h1 h2 recs) - 3) mod 4 = 0).
  { intros. rewrite encode_response_length.
    replace (3 + 4 * len recs - 3) with (len recs * 4) by lia. apply Z.mod_mul. lia. }
  unfold MalformedResponse.
  destruct (decode_cases data)
    as [[-> E] | [(tag & rest & -> & Hne & E) | [(rest & -> & Hmod & E)
       | (h1 & h2 & recs & -> & E)]]]; rewrite E; clear E.
  - split; [|split; [|split]].
    + split; eauto.
    + split; [intros [m H]; discriminate | intros [H _]; now elim H].
    + split; eauto.
    + intros hdr body H Hhdr. destruct hdr; discriminate.
  - assert (Hhd : hd_error (tag :: rest) <> Some 0x59) by (simpl; congruence).
    split; [|split; [|split]].
    + split; eauto.
    + split; [intros _; split; [discriminate | now left] | eauto].
    + split; [intros [m H]; discriminate | discriminate].
    + eauto.
  - split; [|split; [|split]].
    + split; eauto.
    + split; [intros _; split; [discriminate | now right] | eauto].
    + split; [intros [m H]; discriminate | discriminate].
    + eauto.
  - specialize (Hwf h1 h2 recs).
    split; [|split; [|split]].
    + split; [intros [e H]; discriminate|].
      intros [H | [H | H]]; [discriminate | now elim H | contradiction].
    + split; [intros [m H]; discriminate|].
      intros [_ [H | H]]; [now elim H | contradiction].
    + split; [intros [m H]; discriminate | discriminate].
    + intros hdr body H Hhdr _ Hbody. exfalso. apply Hbody.
      rewrite H, len_app, Hhdr in Hwf.
      replace (3 + len body - 3) with (len body) in Hwf by lia. exact Hwf.
Qed.

Lemma decode_dtcdata_failure_witness :
  MalformedResponse (decode_dtcdata (Some [0x59; 0x02; 0xff; 0xe0])).
Proof.
  apply (proj2 (proj2 (proj2 (decode_dtcdata_failure [0x59; 0x02; 0xff; 0xe0])))
           [0x59; 0x02; 0xff] [0xe0]).
  - reflexivity.
  - reflexivity.
  - vm_compute. split; discriminate.
  - vm_compute. discriminate.
Defined.

(** The empty input makes the decoder fail, but with the index error of
    [dtcdata[0]], not with the error it raises for a malformed response. *)
Lemma decode_empty_not_malformed :
  (exists msg, decode_dtcdata (Some []) = Raise (IndexError msg))
  /\ ~ MalformedResponse (decode_dtcdata (Some [])).
Proof.
  split; [eexists; reflexivity|]. intros [msg H]. discriminate.
Qed.

(** ** The dictionary *)

Lemma dict_lookup_set_same (k : string) (v : Z) (d : dict) :
  dict_lookup k (dict_set k v d) = Some v.
Proof.
  induction d as [|[k' v'] d IH]; simpl.
  - now rewrite String.eqb_refl.
  - destruct (String.eqb k' k) eqn:E; simpl; rewrite E; [reflexivity | exact IH].
Qed.

Lemma dict_lookup_set_other (k k' : string) (v : Z) (d : dict) :
  k <> k' -> dict_lookup k' (dict_set k v d) = dict_lookup k' d.
Proof.
  intros Hne. induction d as [|[k0 v0] d IH]; simpl.
  - apply String.eqb_neq in Hne. now rewrite Hne.
  - destruct (String.eqb k0 k) eqn:E; simpl.
    + apply String.eqb_eq in E. subst k0.
      apply String.eqb_neq in Hne. now rewrite Hne.
    + destruct (String.eqb k0 k'); [reflexivity | exact IH].
Qed.

Lemma dict_keys_set (k : string) (v : Z) (d : dict) :
  dict_keys (dict_set k v d)
  = if in_dec string_dec k (dict_keys d) then dict_keys d else dict_keys d ++ [k].
Proof.
  induction d as [|[k' v'] d IH]; simpl.
  - reflexivity.
  - destruct (String.eqb k' k) eqn:E; simpl.
    + apply String.eqb_eq in E. subst k'.
      destruct (string_dec k k) as [Heq|Hn]; [|now elim Hn].
      reflexivity.
    + apply String.eqb_neq in E.
      destruct (string_dec k' k) as [Heq|Hn]; [now elim E|].
      fold (dict_keys (dict_set k v d)). rewrite IH.
      fold (dict_keys d).
      destruct (in_dec string_dec k (dict_keys d)); reflexivity.
Qed.

Lemma table_of_snoc (recs : list dtc_record) (r : dtc_record) (d : dict) :
  table_of (recs ++ [r]) d
  = dict_set (dtc_key (rec_id r)) (rec_status r) (table_of recs d).
Proof. unfold table_of. now rewrite fold_left_app. Qed.

(** The keys of the table are the keys of the records in the order in which
    each first occurs. *)
Lemma table_keys (recs : list dtc_record) :
  dict_keys (table_of recs [])
  = first_occurrences (map (fun r => dtc_key (rec_id r)) recs).
Proof.
  unfold first_occurrences.
  induction recs as [|r recs IH] using rev_ind.
  - reflexivity.
  - rewrite table_of_snoc, dict_keys_set, IH.
    rewrite map_app, rev_app_distr. cbn [map rev app nodup].
    set (k := dtc_key (rec_id r)).
    set (ks := map (fun r0 => dtc_key (rec_id r0)) recs).
    destruct (in_dec string_dec k (rev (nodup string_dec (rev ks)))) as [Hin|Hnin];
      destruct (in_dec string_dec k (rev ks)) as [Hin'|Hnin']; try reflexivity.
    + exfalso. apply Hnin'. apply in_rev in Hin. now apply nodup_In in Hin.
    + exfalso. apply Hnin. apply -> in_rev. now apply nodup_In.
Qed.

Lemma table_size_le (recs : list dtc_record) :
  (List.length (table_of recs []) <= List.length recs)%nat.
Proof.
  replace (List.length (table_of recs [])) with (List.length (dict_keys (table_of recs [])))
    by apply length_map.
  rewrite table_keys. unfold first_occurrences.
  rewrite length_rev.
  etransitivity; [apply NoDup_incl_length|].
  - apply NoDup_nodup.
  - intros x Hx. apply nodup_In in Hx. exact Hx.
  - now rewrite length_rev, length_map.
Qed.

Lemma table_lookup_last (post pre : list dtc_record) (r : dtc_record) (d : dict) :
  (forall r', In r' post -> dtc_key (rec_id r') <> dtc_key (rec_id r)) ->
  dict_lookup (dtc_key (rec_id r)) (table_of (pre ++ r :: post) d) = Some (rec_status r).
Proof.
  revert pre r. induction post as [|p post IH] using rev_ind; intros pre r Hpost.
  - rewrite table_of_snoc. apply dict_lookup_set_same.
  - replace (pre ++ r :: post ++ [p]) with ((pre ++ r :: post) ++ [p])
      by (rewrite <- app_assoc; reflexivity).
    rewrite table_of_snoc, dict_lookup_set_other.
    + apply IH. intros r' Hin. apply Hpost. apply in_or_app. now left.
    + apply Hpost. apply in_or_app. right. now left.
Qed.

(** ** Identifiers and their keys *)

Lemma value_of_hex_digit_inv (d : Z) : 0 <= d < 16 -> value_of_hex_digit (hex_digit d) = d.
Proof.
  intros H.
  assert (E : d = 0 \/ d = 1 \/ d = 2 \/ d = 3 \/ d = 4 \/ d = 5 \/ d = 6 \/ d = 7 \/
              d = 8 \/ d = 9 \/ d = 10 \/ d = 11 \/ d = 12 \/ d = 13 \/ d = 14 \/ d = 15)
    by lia.
  repeat (destruct E as [-> | E]; [reflexivity|]). subst d. reflexivity.
Qed.

Lemma byte_hex_inj (a b : Z) :
  0 <= a < 256 -> 0 <= b < 256 ->
  hex_digit (a / 16) = hex_digit (b / 16) ->
  hex_digit (a mod 16) = hex_digit (b mod 16) ->
  a = b.
Proof.
  intros Ha Hb Hhi Hlo.
  apply (f_equal value_of_hex_digit) in Hhi, Hlo.
  rewrite !value_of_hex_digit_inv in Hhi, Hlo
    by (try apply Z.mod_pos_bound; try (split; [apply Z.div_pos | apply Z.div_lt_upper_bound]); lia).
  rewrite (Z.div_mod a 16), (Z.div_mod b 16) by lia. congruence.
Qed.

Lemma dtc_key_inj (i j : Z * Z * Z) :
  id_in_range i -> id_in_range j -> dtc_key i = dtc_key j -> i = j.
Proof.
  destruct i as [[a b] c], j as [[a' b'] c'].
  intros (Ha & Hb & Hc) (Ha' & Hb' & Hc') H.
  unfold dtc_key in H. cbn [id_bytes bytes_hex] in H.
  injection H as H1 H2 H3 H4 H5 H6.
  rewrite (@byte_hex_inj a a'), (@byte_hex_inj b b'), (@byte_hex_inj c c') by assumption.
  reflexivity.
Qed.

Lemma keys_in_iff (recs : list dtc_record) (r : dtc_record) :
  ids_in_range (r :: recs) ->
  In (dtc_key (rec_id r)) (map (fun r0 => dtc_key (rec_id r0)) recs)
  <-> In (rec_id r) (map rec_id recs).
Proof.
  intros Hrange. inversion Hrange as [|? ? Hr Hrecs]; subst.
  rewrite !in_map_iff. split; intros (r0 & E & Hin); exists r0; split; auto.
  - apply dtc_key_inj; auto.
    unfold ids_in_range in Hrecs. rewrite Forall_forall in Hrecs. now apply Hrecs.
  - now rewrite E.
Qed.

Lemma distinct_keys_count (recs : list dtc_record) :
  ids_in_range recs ->
  List.length (nodup string_dec (map (fun r => dtc_key (rec_id r)) recs))
  = List.length (nodup id_eq_dec (map rec_id recs)).
Proof.
  induction recs as [|r recs IH]; intros Hrange.
  - reflexivity.
  - pose proof (keys_in_iff Hrange) as Hiff.
    inversion Hrange as [|? ? Hr Hrecs]; subst.
    cbn [map nodup].
    destruct (in_dec string_dec _ _) as [Hk|Hk];
      destruct (in_dec id_eq_dec _ _) as [Hi|Hi]; simpl; auto; tauto.
Qed.

Lemma nodup_rev_length {A : Type} (dec : forall x y : A, {x = y} + {x <> y}) (l : list A) :
  List.length (nodup dec (rev l)) = List.length (nodup dec l).
Proof.
  apply Permutation_length, NoDup_Permutation; try apply NoDup_nodup.
  intros x. rewrite !nodup_In. symmetry. apply in_rev.
Qed.

Lemma table_size (recs : list dtc_record) :
  ids_in_range recs ->
  List.length (table_of recs []) = List.length (nodup id_eq_dec (map rec_id recs)).
Proof.
  intros Hrange.
  replace (List.length (table_of recs [])) with (List.length (dict_keys (table_of recs [])))
    by apply length_map.
  rewrite table_keys. unfold first_occurrences.
  now rewrite length_rev, nodup_rev_length, distinct_keys_count.
Qed.

(** C5, as the code has it: a response of a 3-byte header that starts with
    0x59 followed by N records of 4 bytes always decodes, and the table has
    one entry for each distinct identifier: at most N entries, and exactly N
    when the N identifiers are pairwise distinct. *)
Theorem decode_record_count (h1 h2 : Z) (recs : list dtc_record) :
  ids_in_range recs ->
  exists table,
    decode_dtcdata (Some (encode_response h1 h2 recs)) = Ok table
    /\ List.length table = List.length (nodup id_eq_dec (map rec_id recs))
    /\ (List.length table <= List.length recs)%nat
    /\ (NoDup (map rec_id recs) -> List.length table = List.length recs).
Proof.
  intros Hrange. exists (table_of recs []).
  split; [apply decode_encode|].
  split; [now apply table_size|].
  split; [apply table_size_le|].
  intros Hnodup. rewrite table_size by assumption.
  rewrite nodup_fixed_point by assumption. apply length_map.
Qed.

Lemma decode_record_count_witness :
  exists table,
    decode_dtcdata
      (Some [0x59; 0x02; 0xff; 0xe0; 0x94; 0x04; 0x2f; 0xe0; 0x94; 0x02; 0x2c]) = Ok table
    /\ List.length table = 2%nat.
Proof.
  destruct (@decode_record_count 0x02 0xff
              [mk_record (0xe0, 0x94, 0x04) 0x2f; mk_record (0xe0, 0x94, 0x02) 0x2c])
    as (table & E & _ & _ & Hdistinct).
  - repeat constructor; cbn; lia.
  - exists table. split; [exact E|]. apply Hdistinct.
    repeat constructor; simpl; intuition congruence.
Defined.

(** Two records with the same identifier leave one entry in the table. *)
Lemma decode_duplicate_count :
  decode_dtcdata
    (Some [0x59; 0x02; 0xff; 0xe0; 0x94; 0x04; 0x2f; 0xe0; 0x94; 0x04; 0x2e])
  = Ok [("e09404", 0x2e)]
  /\ ~ (exists table,
          decode_dtcdata
            (Some [0x59; 0x02; 0xff; 0xe0; 0x94; 0x04; 0x2f; 0xe0; 0x94; 0x04; 0x2e])
          = Ok table
          /\ List.length table = 2%nat).
Proof.
  split; [reflexivity|].
  intros (table & E & Hlen). vm_compute in E. injection E as <-. discriminate.
Qed.

(** With a header of the tag byte alone the length check fails. *)
Example decode_one_byte_header :
  decode_dtcdata (Some [0x59; 0xe0; 0x94; 0x04; 0x2f])
  = Raise (RuntimeError "Unexpected response length 5").
Proof. reflexivity. Qed.

(** C6: decoding touches nothing but its argument, and the status the table
    holds for an identifier is the one of the last record of the input that
    carries it; the keys of the table stand in the order in which the
    identifiers first occur in the input. *)
Theorem decode_last_write_wins (h1 h2 : Z) (recs : list dtc_record) :
  ids_in_range recs ->
  exists table,
    decode_dtcdata (Some (encode_response h1 h2 recs)) = Ok table
    /\ (forall pre r post,
          recs = pre ++ r :: post ->
          (forall r', In r' post -> rec_id r' <> rec_id r) ->
          dict_lookup (dtc_key (rec_id r)) table = Some (rec_status r))
    /\ dict_keys table = first_occurrences (map (fun r => dtc_key (rec_id r)) recs)
    /\ (forall (B : Bus) (w : world B),
          lift (decode_dtcdata (Some (encode_response h1 h2 recs))) w = (Ok table, w, [])).
Proof.
  intros Hrange. exists (table_of recs []).
  split; [apply decode_encode|].
  split; [|split; [apply table_keys|]].
  - intros pre r post -> Hlast. apply table_lookup_last.
    intros r' Hin Hkey. apply (Hlast r' Hin).
    unfold ids_in_range in Hrange. rewrite Forall_forall in Hrange.
    apply dtc_key_inj; auto; apply Hrange; apply in_or_app; right;
      [now right | now left].
  - intros B w. unfold lift. now rewrite decode_encode.
Qed.

Lemma decode_last_write_wins_witness :
  exists table,
    decode_dtcdata
      (Some [0x59; 0x02; 0xff; 0xe0; 0x94; 0x04; 0x2f; 0xe0; 0x94; 0x02; 0x2c;
             0xe0; 0x94; 0x04; 0x2e]) = Ok table
    /\ dict_lookup "e09404" table = Some 0x2e
    /\ dict_keys table = ["e09404"; "e09402"]%string.
Proof.
  destruct (@decode_last_write_wins 0x02 0xff
              [mk_record (0xe0, 0x94, 0x04) 0x2f; mk_record (0xe0, 0x94, 0x02) 0x2c;
               mk_record (0xe0, 0x94, 0x04) 0x2e])
    as (table & E & Hlast & Hkeys & _).
  - repeat constructor; cbn; lia.
  - exists table. split; [exact E|]. split; [|exact Hkeys].
    apply (Hlast [mk_record (0xe0, 0x94, 0x04) 0x2f; mk_record (0xe0, 0x94, 0x02) 0x2c]
                 (mk_record (0xe0, 0x94, 0x04) 0x2e) []).
    + reflexivity.
    + intros r' [].
Defined.

(** ** Running programs *)

Section RunLemmas.

Variable B : Bus.

Lemma bind_ok {A C : Type} (m : io B A) (k : A -> io B C) (w w1 : world B)
    (a : A) (ev1 : list event) :
  m w = (Ok a, w1, ev1) ->
  bind m k w = (let '(r, w2, ev2) := k a w1 in (r, w2, ev1 ++ ev2)).
Proof. intros H. unfold bind. rewrite H. now destruct (k a w1) as [[r w2] ev2]. Qed.

Lemma bind_raise {A C : Type} (m : io B A) (k : A -> io B C) (w w1 : world B)
    (e : exn) (ev1 : list event) :
  m w = (Raise e, w1, ev1) -> bind m k w = (Raise e, w1, ev1).
Proof. intros H. unfold bind. now rewrite H. Qed.

Lemma bind_ext {A C : Type} (m : io B A) (k1 k2 : A -> io B C) (w : world B) :
  (forall a w', k1 a w' = k2 a w') -> bind m k1 w = bind m k2 w.
Proof.
  intros H. unfold bind. destruct (m w) as [[[a|e] w1] ev1]; [|reflexivity].
  now rewrite H.
Qed.

Lemma bind_cong {A C : Type} (m1 m2 : io B A) (k1 k2 : A -> io B C) (w : world B) :
  (forall w', m1 w' = m2 w') -> (forall a w', k1 a w' = k2 a w') ->
  bind m1 k1 w = bind m2 k2 w.
Proof. intros Hm Hk. unfold bind at 1. rewrite Hm. now apply bind_ext. Qed.

Lemma bind_assoc {A C D : Type} (m : io B A) (k : A -> io B C) (h : C -> io B D)
    (w : world B) :
  bind (bind m k) h w = bind m (fun a => bind (k a) h) w.
Proof.
  unfold bind. destruct (m w) as [[[a|e] w1] ev1]; [|reflexivity].
  destruct (k a w1) as [[[c|e] w2] ev2]; [|reflexivity].
  destruct (h c w2) as [[r w3] ev3]. now rewrite app_assoc.
Qed.

Lemma bind_lift_ok {A C : Type} (a : A) (k : A -> io B C) (w : world B) :
  bind (lift (Ok a)) k w = k a w.
Proof. unfold bind, lift. now destruct (k a w) as [[r w2] ev2]. Qed.

Lemma bind_ret {A C : Type} (a : A) (k : A -> io B C) (w : world B) :
  bind (ret a) k w = k a w.
Proof. apply bind_lift_ok. Qed.

Lemma for_app {A : Type} (l1 l2 : list A) (body : A -> io B unit) (w : world B) :
  for_ (l1 ++ l2) body w = (for_ l1 body ;; for_ l2 body) w.
Proof.
  revert w. induction l1 as [|x l1 IH]; intros w.
  - cbn [app for_]. now rewrite bind_ret.
  - cbn [app for_]. rewrite bind_assoc. apply bind_ext. intros _ w'. apply IH.
Qed.

Lemma for_map {A A' : Type} (f : A -> A') (l : list A) (body : A' -> io B unit)
    (w : world B) :
  for_ (map f l) body w = for_ l (fun x => body (f x)) w.
Proof.
  revert w. induction l as [|x l IH]; intros w; [reflexivity|].
  cbn [map for_]. apply bind_ext. intros _ w'. apply IH.
Qed.

Lemma for_ext {A : Type} (l : list A) (body1 body2 : A -> io B unit) (w : world B) :
  (forall x w', In x l -> body1 x w' = body2 x w') ->
  for_ l body1 w = for_ l body2 w.
Proof.
  revert w. induction l as [|x l IH]; intros w H; [reflexivity|].
  cbn [for_]. unfold bind. rewrite (H x w) by now left.
  destruct (body2 x w) as [[[[]|e] w1] ev1]; [|reflexivity].
  rewrite IH; [reflexivity|]. intros y w' Hy. apply H. now right.
Qed.

(** Two nested loops visit the pairs of their ranges row by row. *)
Lemma for_nested {A C : Type} (l1 : list A) (l2 : list C)
    (body : A -> C -> io B unit) (w : world B) :
  for_ l1 (fun a => for_ l2 (fun c => body a c)) w
  = for_ (list_prod l1 l2) (fun ac => body (fst ac) (snd ac)) w.
Proof.
  revert w. induction l1 as [|a l1 IH]; intros w; [reflexivity|].
  cbn [list_prod for_]. rewrite for_app.
  apply bind_cong.
  - intros w'. now rewrite for_map.
  - intros _ w'. apply IH.
Qed.

(** A loop that sends a frame and waits 10 ms at each turn. *)
Lemma send_loop_ok (frames : list can_message) (w wc : world B) :
  after_frames B frames w = Some wc ->
  for_ frames (fun m => send B m ;; sleep B 10) w = (Ok tt, wc, frame_events frames).
Proof.
  revert w. induction frames as [|m frames IH]; intros w H; simpl in H.
  - now injection H as ->.
  - cbn [for_]. destruct (bus_send B m w) as [[[]|e] w'] eqn:E; [|discriminate].
    erewrite bind_ok; [|unfold bind, send, sleep; rewrite E; reflexivity].
    rewrite (IH _ H). reflexivity.
Qed.

Lemma send_loop_raise (pre post : list can_message) (m : can_message)
    (w w1 w2 : world B) (e : exn) :
  after_frames B pre w = Some w1 ->
  bus_send B m w1 = (Raise e, w2) ->
  for_ (pre ++ m :: post) (fun m => send B m ;; sleep B 10) w
  = (Raise e, w2, frame_events pre ++ [Sent m]).
Proof.
  intros Hpre Hsend. rewrite for_app.
  erewrite bind_ok by (apply send_loop_ok; eassumption). cbn [for_].
  unfold bind at 1. unfold bind at 1. unfold send. rewrite Hsend. reflexivity.
Qed.

End RunLemmas.

(** ** Reading the DTCs *)

Section Oracle.

Variable B : Bus.

Lemma req_isotp_run (req : list Z) (w : world B) :
  req_isotp B req w
  = (Ok (fst (isotp_request B req w)), snd (isotp_request B req w),
     [Requested req (fst (isotp_request B req w))]).
Proof. unfold req_isotp. now destruct (isotp_request B req w). Qed.

(** One turn of the loop of [get_dtcs] whose request times out. *)
Lemma get_dtcs_turn_unanswered (mask : Z) (rest : list Z) (w w' : world B) :
  let req := [0x19; 0x02; mask] in
  let body := fun _ : Z =>
    r <- req_isotp B req ;;
    match r with
    | Some _ => dtcs <- lift (decode_dtcdata r) ;; ret (Some dtcs)
    | None => ret None
    end in
  forall tries : Z,
  isotp_request B req w = (None, w') ->
  for_return (tries :: rest) body w
  = (let '(r, w2, ev) := for_return rest body w' in (r, w2, Requested req None :: ev)).
Proof.
  intros req body tries H. cbn [for_return].
  erewrite bind_ok.
  2:{ unfold body. erewrite bind_ok by (rewrite req_isotp_run, H; reflexivity).
      cbn [fst snd]. reflexivity. }
  cbv beta iota. now destruct (for_return rest body w') as [[r w2] ev].
Qed.

(** One turn of the loop of [get_dtcs] whose request is answered. *)
Lemma get_dtcs_turn_answered (mask : Z) (rest : list Z) (w w' : world B) (resp : list Z) :
  let req := [0x19; 0x02; mask] in
  let body := fun _ : Z =>
    r <- req_isotp B req ;;
    match r with
    | Some _ => dtcs <- lift (decode_dtcdata r) ;; ret (Some dtcs)
    | None => ret None
    end in
  forall tries : Z,
  isotp_request B req w = (Some resp, w') ->
  for_return (tries :: rest) body w
  = (try dtcs <- decode_dtcdata (Some resp); Ok (Some dtcs), w',
     [Requested req (Some resp)]).
Proof.
  intros req body tries H. cbn [for_return]. unfold body, bind.
  rewrite req_isotp_run, H. cbn [fst snd]. unfold lift, ret.
  destruct (decode_dtcdata (Some resp)) as [dtcs|e]; reflexivity.
Qed.

Lemma get_dtcs_answered (status_mask : Z) (w : world B) (k : nat) (wk w' : world B)
    (resp : list Z) :
  let req := [0x19; 0x02; status_mask] in
  (k < 3)%nat ->
  unanswered B req k w = Some wk ->
  isotp_request B req wk = (Some resp, w') ->
  get_dtcs B status_mask w
  = (try dtcs <- decode_dtcdata (Some resp); Ok (Some dtcs), w',
     repeat (Requested req None) k ++ [Requested req (Some resp)]).
Proof.
  intros req Hk Hun Hresp. unfold get_dtcs. change (range 3) with [0; 1; 2]. fold req.
  destruct k as [|[|[|k]]]; [| | |lia]; cbn [unanswered] in Hun.
  - injection Hun as ->. now rewrite (get_dtcs_turn_answered _ _ _ _ Hresp).
  - destruct (isotp_request B req w) as [[r0|] w0] eqn:E0; [discriminate|].
    injection Hun as ->.
    rewrite (get_dtcs_turn_unanswered _ _ _ _ E0).
    now rewrite (get_dtcs_turn_answered _ _ _ _ Hresp).
  - destruct (isotp_request B req w) as [[r0|] w0] eqn:E0; [discriminate|].
    destruct (isotp_request B req w0) as [[r1|] w1] eqn:E1; [discriminate|].
    injection Hun as ->.
    rewrite (get_dtcs_turn_unanswered _ _ _ _ E0).
    rewrite (get_dtcs_turn_unanswered _ _ _ _ E1).
    now rewrite (get_dtcs_turn_answered _ _ _ _ Hresp).
Qed.

Lemma get_dtcs_gives_up (status_mask : Z) (w w3 : world B) :
  let req := [0x19; 0x02; status_mask] in
  unanswered B req 3 w = Some w3 ->
  get_dtcs B status_mask w = (Ok None, w3, repeat (Requested req None) 3).
Proof.
  intros req Hun. unfold get_dtcs. change (range 3) with [0; 1; 2]. fold req.
  cbn [unanswered] in Hun.
  destruct (isotp_request B req w) as [[r0|] w0] eqn:E0; [discriminate|].
  destruct (isotp_request B req w0) as [[r1|] w1] eqn:E1; [discriminate|].
  destruct (isotp_request B req w1) as [[r2|] w2] eqn:E2; [discriminate|].
  injection Hun as ->.
  rewrite (get_dtcs_turn_unanswered _ _ _ _ E0).
  rewrite (get_dtcs_turn_unanswered _ _ _ _ E1).
  rewrite (get_dtcs_turn_unanswered _ _ _ _ E2).
  reflexivity.
Qed.

(** Every call either is answered within three attempts or sees three
    attempts time out. *)
Lemma get_dtcs_cases (status_mask : Z) (w : world B) :
  let req := [0x19; 0x02; status_mask] in
  (exists (k : nat) (wk w' : world B) (resp : list Z),
      (k < 3)%nat /\ unanswered B req k w = Some wk
      /\ isotp_request B req wk = (Some resp, w'))
  \/ (exists w3 : world B, unanswered B req 3 w = Some w3).
Proof.
  intros req. cbn [unanswered].
  destruct (isotp_request B req w) as [[r0|] w0] eqn:E0.
  { left. exists 0%nat, w, w0, r0. repeat split; auto. }
  destruct (isotp_request B req w0) as [[r1|] w1] eqn:E1.
  { left. exists 1%nat, w0, w1, r1. repeat split; auto. cbn. now rewrite E0. }
  destruct (isotp_request B req w1) as [[r2|] w2] eqn:E2.
  { left. exists 2%nat, w1, w2, r2. repeat split; auto. cbn. now rewrite E0, E1. }
  right. now exists w2.
Qed.

(** C7: [get_dtcs] issues the request [0x19, 0x02, status_mask] at most 3
    times.  When the first [k] attempts ([k < 3]) time out and the next one
    is answered, it returns what the decoder makes of that answer after
    [k + 1] requests; when 3 attempts time out it returns [None] after
    exactly 3 requests, without raising.  One of the two always happens. *)
Theorem get_dtcs_retries (status_mask : Z) (w : world B) :
  let req := [0x19; 0x02; status_mask] in
  (forall (k : nat) (wk w' : world B) (resp : list Z),
      (k < 3)%nat ->
      unanswered B req k w = Some wk ->
      isotp_request B req wk = (Some resp, w') ->
      get_dtcs B status_mask w
      = (try dtcs <- decode_dtcdata (Some resp); Ok (Some dtcs), w',
         repeat (Requested req None) k ++ [Requested req (Some resp)]))
  /\ (forall w3 : world B,
        unanswered B req 3 w = Some w3 ->
        get_dtcs B status_mask w = (Ok None, w3, repeat (Requested req None) 3))
  /\ ((exists (k : nat) (wk w' : world B) (resp : list Z),
          (k < 3)%nat /\ unanswered B req k w = Some wk
          /\ isotp_request B req wk = (Some resp, w'))
      \/ (exists w3 : world B, unanswered B req 3 w = Some w3)).
Proof.
  intros req. split; [|split].
  - intros k wk w' resp. apply get_dtcs_answered.
  - intros w3. apply get_dtcs_gives_up.
  - apply get_dtcs_cases.
Qed.

(** C10: [get_supported_dtcs] issues the request [0x19, 0x0A] exactly once
    and hands whatever comes back to the decoder; when the request times out
    the decoder is called on [None] and the call ends in a type error. *)
Theorem get_supported_dtcs_no_response (w : world B) :
  (exists (r : option (list Z)) (w' : world B),
      isotp_request B [0x19; 0x0A] w = (r, w')
      /\ get_supported_dtcs B w
         = (decode_dtcdata r, w', [Requested [0x19; 0x0A] r]))
  /\ (forall w' : world B,
        isotp_request B [0x19; 0x0A] w = (None, w') ->
        get_supported_dtcs B w
        = (Raise (TypeError "'NoneType' object is not subscriptable"), w',
           [Requested [0x19; 0x0A] None])).
Proof.
  assert (Hrun : forall r w', isotp_request B [0x19; 0x0A] w = (r, w') ->
            get_supported_dtcs B w = (decode_dtcdata r, w', [Requested [0x19; 0x0A] r])).
  { intros r w' H. unfold get_supported_dtcs, bind. rewrite req_isotp_run, H.
    cbn [fst snd]. unfold lift. reflexivity. }
  split.
  - destruct (isotp_request B [0x19; 0x0A] w) as [r w'] eqn:E.
    exists r, w'. split; [reflexivity|]. now apply Hrun.
  - intros w' H. now rewrite (Hrun _ _ H).
Qed.

End Oracle.

Lemma get_dtcs_retries_witness :
  get_dtcs (late_bus 2) 0x0C double_init
  = (Ok (Some [("e09404", 0x2f)]), mk_double None 0 3,
     [Requested [0x19; 0x02; 0x0C] None; Requested [0x19; 0x02; 0x0C] None;
      Requested [0x19; 0x02; 0x0C] (Some [0x59; 0x02; 0xff; 0xe0; 0x94; 0x04; 0x2f])])
  /\ get_dtcs silent_bus 0x0C double_init
     = (Ok None, mk_double None 0 3,
        [Requested [0x19; 0x02; 0x0C] None; Requested [0x19; 0x02; 0x0C] None;
         Requested [0x19; 0x02; 0x0C] None]).
Proof.
  split.
  - exact (proj1 (get_dtcs_retries (late_bus 2) 0x0C double_init)
             2%nat (mk_double None 0 2) (mk_double None 0 3)
             [0x59; 0x02; 0xff; 0xe0; 0x94; 0x04; 0x2f]
             (le_n 3) eq_refl eq_refl).
  - exact (proj1 (proj2 (get_dtcs_retries silent_bus 0x0C double_init))
             (mk_double None 0 3) eq_refl).
Defined.

Lemma get_supported_dtcs_no_response_witness :
  get_supported_dtcs silent_bus double_init
  = (Raise (TypeError "'NoneType' object is not subscriptable"), mk_double None 0 1,
     [Requested [0x19; 0x0A] None]).
Proof.
  exact (proj2 (get_supported_dtcs_no_response silent_bus double_init)
           (mk_double None 0 1) eq_refl).
Defined.

(** ** The probe burst and the checksum verdict *)

Section Probe.

Variable B : Bus.

Lemma burst_ok (msg : can_message) (w w16 : world B) :
  after_frames B (repeat msg 16) w = Some w16 ->
  for_ (range 16) (fun _ => send B msg ;; sleep B 10) w
  = (Ok tt, w16, frame_events (repeat msg 16)).
Proof.
  intros H. rewrite <- (send_loop_ok _ _ _ H).
  change (repeat msg 16) with (map (fun _ : Z => msg) (range 16)).
  now rewrite for_map.
Qed.

Lemma burst_raise (msg : can_message) (k : nat) (w wk w' : world B) (e : exn) :
  (k < 16)%nat ->
  after_frames B (repeat msg k) w = Some wk ->
  bus_send B msg wk = (Raise e, w') ->
  for_ (range 16) (fun _ => send B msg ;; sleep B 10) w
  = (Raise e, w', frame_events (repeat msg k) ++ [Sent msg]).
Proof.
  intros Hk Hpre Hsend.
  rewrite <- (send_loop_raise _ _ (repeat msg (15 - k)) _ _ Hpre Hsend).
  replace (repeat msg k ++ msg :: repeat msg (15 - k)) with (repeat msg 16).
  - change (repeat msg 16) with (map (fun _ : Z => msg) (range 16)).
    now rewrite for_map.
  - change (msg :: repeat msg (15 - k)) with (repeat msg (S (15 - k))).
    rewrite <- repeat_app. f_equal. lia.
Qed.

(** A run of [verify_checksum] whose 16 sends all succeed. *)
Lemma verify_checksum_run (payload : list Z) (w w16 : world B) :
  forallb is_byte payload = true ->
  after_frames B (repeat (mk_message 0x3FD payload false) 16) w = Some w16 ->
  verify_checksum B payload w
  = (let '(dtcs, w', ev) := get_dtcs B 0x0C (time_sleep B 100 w16) in
     (checksum_verdict dtcs, w',
      frame_events (repeat (mk_message 0x3FD payload false) 16) ++ Slept 100 :: ev)).
Proof.
  intros Hbytes Hsends. unfold verify_checksum, can_Message. rewrite Hbytes.
  rewrite bind_lift_ok.
  erewrite bind_ok by (apply burst_ok; eassumption).
  unfold bind, sleep, lift, ret, checksum_verdict.
  destruct (get_dtcs B 12 (time_sleep B 100 w16)) as [[[dtcs|e] w'] ev]; cbn [rbind].
  - destruct (py_get dtcs "e09404" (PStr "missing")) as [c|e]; cbn [rbind];
      now rewrite ?app_nil_r.
  - reflexivity.
Qed.

(** A run of [verify_checksum] in which a send raises. *)
Lemma verify_checksum_send_raises (payload : list Z) (k : nat) (w wk w' : world B)
    (e : exn) :
  forallb is_byte payload = true ->
  (k < 16)%nat ->
  after_frames B (repeat (mk_message 0x3FD payload false) k) w = Some wk ->
  bus_send B (mk_message 0x3FD payload false) wk = (Raise e, w') ->
  verify_checksum B payload w
  = (Raise e, w',
     frame_events (repeat (mk_message 0x3FD payload false) k)
     ++ [Sent (mk_message 0x3FD payload false)]).
Proof.
  intros Hbytes Hk Hpre Hsend. unfold verify_checksum, can_Message. rewrite Hbytes.
  rewrite bind_lift_ok.
  now erewrite bind_raise by (eapply burst_raise; eassumption).
Qed.

End Probe.

(** ** The frames a run puts on the bus *)

Lemma sent_payloads_app (ev1 ev2 : list event) :
  sent_payloads (ev1 ++ ev2) = sent_payloads ev1 ++ sent_payloads ev2.
Proof. unfold sent_payloads. apply flat_map_app. Qed.

Lemma sent_payloads_frames (frames : list can_message) :
  sent_payloads (frame_events frames) = map data frames.
Proof.
  induction frames as [|m frames IH]; [reflexivity|].
  change (frame_events (m :: frames)) with ([Sent m; Slept 10] ++ frame_events frames).
  rewrite sent_payloads_app, IH. reflexivity.
Qed.

Lemma get_dtcs_sends_nothing (B : Bus) (status_mask : Z) (w : world B) :
  sent_payloads (snd (get_dtcs B status_mask w)) = [].
Proof.
  destruct (get_dtcs_cases B status_mask w)
    as [(k & wk & w' & resp & Hk & Hun & Hresp) | (w3 & Hun)].
  - rewrite (get_dtcs_answered B status_mask w Hk Hun Hresp). cbn [snd].
    destruct k as [|[|[|k]]]; [reflexivity | reflexivity | reflexivity | lia].
  - rewrite (get_dtcs_gives_up B status_mask w Hun). reflexivity.
Qed.

Lemma count_sent_app (ev1 ev2 : list event) :
  count_sent (ev1 ++ ev2) = (count_sent ev1 + count_sent ev2)%nat.
Proof. unfold count_sent. now rewrite sent_payloads_app, length_app. Qed.

Lemma count_sent_frames (frames : list can_message) :
  count_sent (frame_events frames) = List.length frames.
Proof. unfold count_sent. now rewrite sent_payloads_frames, length_map. Qed.

(** C8, as the code has it: when no send raises, the burst of
    [verify_checksum] sends exactly 16 copies of the frame, 10 ms apart, then
    waits the 100 ms settle period, and only then reads the oracle.  A send
    that raises ends the run there: the exception propagates, nothing more is
    sent, and the oracle is not read. *)
Theorem verify_checksum_burst (B : Bus) (payload : list Z) (w : world B) :
  forallb is_byte payload = true ->
  let msg := mk_message 0x3FD payload false in
  (forall w16 : world B,
      after_frames B (repeat msg 16) w = Some w16 ->
      snd (verify_checksum B payload w)
      = frame_events (repeat msg 16)
        ++ Slept 100 :: snd (get_dtcs B 0x0C (time_sleep B 100 w16))
      /\ count_sent (snd (verify_checksum B payload w)) = 16%nat)
  /\ (forall (k : nat) (wk w' : world B) (e : exn),
        (k < 16)%nat ->
        after_frames B (repeat msg k) w = Some wk ->
        bus_send B msg wk = (Raise e, w') ->
        verify_checksum B payload w
        = (Raise e, w', frame_events (repeat msg k) ++ [Sent msg])
        /\ count_sent (snd (verify_checksum B payload w)) = S k).
Proof.
  intros Hbytes msg. split.
  - intros w16 Hsends.
    rewrite (verify_checksum_run _ _ _ Hbytes Hsends). fold msg.
    pose proof (get_dtcs_sends_nothing B 0x0C (time_sleep B 100 w16)) as Hreq.
    destruct (get_dtcs B 12 (time_sleep B 100 w16)) as [[dtcs w'] ev].
    cbn [snd] in *. split; [reflexivity|].
    rewrite count_sent_app, count_sent_frames, repeat_length.
    change (Slept 100 :: ev) with ([Slept 100] ++ ev).
    rewrite count_sent_app. unfold count_sent at 2. rewrite Hreq. reflexivity.
  - intros k wk w' e Hk Hpre Hsend.
    rewrite (verify_checksum_send_raises _ _ _ Hbytes Hk Hpre Hsend). fold msg.
    split; [reflexivity|]. cbn [snd].
    rewrite count_sent_app, count_sent_frames, repeat_length. cbn. lia.
Qed.

Lemma verify_checksum_burst_witness :
  count_sent (snd (verify_checksum scenario_bus [0x37; 0x01; 0x02; 0x03; 0x04] double_init))
  = 16%nat.
Proof.
  exact (proj2 (proj1 (verify_checksum_burst scenario_bus
                         [0x37; 0x01; 0x02; 0x03; 0x04] double_init eq_refl)
                 (mk_double (Some [0x37; 0x01; 0x02; 0x03; 0x04]) 16 0) eq_refl)).
Defined.

(** On a bus whose fourth send raises, the burst stops after four sends. *)
Lemma verify_checksum_faulty_send :
  fst (fst (verify_checksum (faulty_bus 3) [0x37; 0x01; 0x02; 0x03; 0x04] double_init))
  = Raise (CanOperationError "Failed to transmit")
  /\ count_sent
       (snd (verify_checksum (faulty_bus 3) [0x37; 0x01; 0x02; 0x03; 0x04] double_init))
     = 4%nat
  /\ count_sent
       (snd (verify_checksum (faulty_bus 3) [0x37; 0x01; 0x02; 0x03; 0x04] double_init))
     <> 16%nat
  /\ count_requested
       (snd (verify_checksum (faulty_bus 3) [0x37; 0x01; 0x02; 0x03; 0x04] double_init))
     = 0%nat.
Proof.
  vm_compute. repeat split; discriminate.
Qed.

(** ** The counter search *)

Lemma bmw_3fd_crc_is_byte (message : list Z) : is_byte (bmw_3fd_crc message) = true.
Proof.
  unfold bmw_3fd_crc, is_byte. change 0xFF with (Z.ones 8).
  rewrite Z.land_ones by lia.
  pose proof (Z.mod_pos_bound (crc_calc crc_xor_output_3fd message) (2 ^ 8)) as H.
  apply andb_true_intro. split; [apply Z.leb_le | apply Z.ltb_lt]; lia.
Qed.

Lemma in_range_iff (n c : Z) : In c (range n) <-> 0 <= c < n.
Proof.
  unfold range. rewrite in_map_iff. split.
  - intros (k & <- & Hk). apply in_seq in Hk. lia.
  - intros H. exists (Z.to_nat c). split; [lia|]. apply in_seq. lia.
Qed.

Lemma in_counter_cycle (mask c : Z) : In c (counter_cycle mask) -> 0 <= c <= mask.
Proof.
  unfold counter_cycle, list_times. rewrite in_concat.
  intros (l & Hl & Hc). apply repeat_spec in Hl. subst l.
  apply in_range_iff in Hc. lia.
Qed.

Lemma shifted_counter_is_byte (shape : Z * Z) (c : Z) :
  In shape counter_shapes -> 0 <= c <= fst shape ->
  is_byte (Z.shiftl c (snd shape)) = true.
Proof.
  intros Hshape Hc. unfold is_byte.
  destruct Hshape as [<- | [<- | [<- | []]]]; cbn [fst snd] in *;
    rewrite Z.shiftl_mul_pow2 by lia;
    apply andb_true_intro; split; [apply Z.leb_le | apply Z.ltb_lt
                                  | apply Z.leb_le | apply Z.ltb_lt
                                  | apply Z.leb_le | apply Z.ltb_lt]; lia.
Qed.

Lemma hypothesis_parts (byte : Z) (shape : Z * Z) :
  In (byte, shape) counter_hypotheses <-> (0 <= byte < 4 /\ In shape counter_shapes).
Proof.
  change counter_hypotheses with (list_prod (range 4) counter_shapes).
  rewrite in_prod_iff, in_range_iff. reflexivity.
Qed.

Section CounterSearch.

Variable B : Bus.

Lemma counter_frame_run (byte shift counter : Z) (w : world B) :
  0 <= byte < 4 -> is_byte (Z.shiftl counter shift) = true ->
  counter_frame B byte shift counter w
  = (send B (counter_message byte shift counter) ;; sleep B 10) w.
Proof.
  intros Hbyte Hv. unfold counter_frame.
  assert (Hset : py_setitem [0xFF; 0xFF; 0xFF; 0xFF] byte (Z.shiftl counter shift)
                 = Ok (counter_body byte shift counter)).
  { assert (E : byte = 0 \/ byte = 1 \/ byte = 2 \/ byte = 3) by lia.
    destruct E as [-> | [-> | [-> | ->]]]; reflexivity. }
  rewrite Hset, bind_lift_ok.
  assert (Hmsg : can_Message 0x3FD
                   ([bmw_3fd_crc (counter_body byte shift counter)]
                    ++ counter_body byte shift counter) false
                 = Ok (counter_message byte shift counter)).
  { unfold can_Message, counter_message. cbn [app forallb].
    rewrite bmw_3fd_crc_is_byte. cbn [andb].
    assert (E : byte = 0 \/ byte = 1 \/ byte = 2 \/ byte = 3) by lia.
    unfold counter_body.
    destruct E as [-> | [-> | [-> | ->]]];
      [change (Z.to_nat 0) with 0%nat | change (Z.to_nat 1) with 1%nat
       | change (Z.to_nat 2) with 2%nat | change (Z.to_nat 3) with 3%nat];
      cbn [list_set forallb]; rewrite Hv; reflexivity. }
  rewrite Hmsg, bind_lift_ok. reflexivity.
Qed.

(** The cycling of one hypothesis sends its frames one after the other. *)
Lemma counter_cycle_run (byte : Z) (shape : Z * Z) (w wc : world B) :
  In (byte, shape) counter_hypotheses ->
  after_frames B (counter_messages byte shape) w = Some wc ->
  for_ (list_times (range (fst shape + 1)) 4) (counter_frame B byte (snd shape)) w
  = (Ok tt, wc, frame_events (counter_messages byte shape)).
Proof.
  intros Hh Hsends. apply hypothesis_parts in Hh. destruct Hh as [Hbyte Hshape].
  rewrite <- (send_loop_ok _ _ _ Hsends). unfold counter_messages.
  rewrite for_map. apply for_ext.
  intros c w' Hc. apply counter_frame_run; [assumption|].
  apply shifted_counter_is_byte; [assumption|]. now apply in_counter_cycle.
Qed.

(** A trial whose sends all succeed. *)
Lemma counter_trial_run (byte : Z) (shape : Z * Z) (w wc : world B) :
  In (byte, shape) counter_hypotheses ->
  after_frames B (counter_messages byte shape) w = Some wc ->
  counter_trial B byte shape w
  = (let '(dtcs, w', ev) := get_dtcs B 0x0C (time_sleep B 100 wc) in
     (fst (counter_outcome byte shape dtcs), w',
      frame_events (counter_messages byte shape)
      ++ Slept 100 :: ev ++ snd (counter_outcome byte shape dtcs))).
Proof.
  intros Hh Hsends. unfold counter_trial. destruct shape as [mask shift].
  erewrite bind_ok by (apply (@counter_cycle_run byte (mask, shift)); eassumption).
  unfold bind at 1. unfold sleep at 1. unfold bind at 1.
  destruct (get_dtcs B 12 (time_sleep B 100 wc)) as [[[dtcs|e] w'] ev].
  2:{ cbn [counter_outcome fst snd]. now rewrite app_nil_r. }
  destruct dtcs as [table|].
  2:{ cbn [counter_outcome fst snd]. unfold bind, lift. cbn [py_get].
      now rewrite !app_nil_r. }
  unfold bind at 1. unfold lift at 1. cbn [py_get counter_outcome].
  destruct (dict_lookup "e09402" table) as [status|].
  - unfold py_ne_int, py_eq_int. destruct (status =? 47); cbn [negb fst snd].
    + unfold ret. now rewrite !app_nil_r.
    + unfold bind, print, lift, format_hex_val. cbn [fst snd app].
      unfold counter_report. cbn [fst snd]. reflexivity.
  - cbn [py_ne_int py_eq_int negb fst snd].
    unfold bind, print, lift, format_hex_val. cbn [fst snd app]. reflexivity.
Qed.

Lemma find_counter_fields_flat (w : world B) :
  find_counter_fields B w
  = for_ counter_hypotheses (fun h => counter_trial B (fst h) (snd h)) w.
Proof.
  unfold find_counter_fields.
  change counter_hypotheses with (list_prod (range 4) counter_shapes).
  apply (for_nested (range 4) counter_shapes (fun byte shape => counter_trial B byte shape)).
Qed.

Lemma for_abort {A : Type} (pre post : list A) (x : A) (body : A -> io B unit)
    (w w1 w2 : world B) (ev1 ev2 : list event) (e : exn) :
  for_ pre body w = (Ok tt, w1, ev1) ->
  body x w1 = (Raise e, w2, ev2) ->
  for_ (pre ++ x :: post) body w = (Raise e, w2, ev1 ++ ev2).
Proof.
  intros Hpre Hx. rewrite for_app. erewrite bind_ok by eassumption.
  cbn [for_]. now erewrite bind_raise by eassumption.
Qed.

End CounterSearch.

(** C2: [find_counter_fields] tries the twelve hypotheses, each byte position
    0 to 3 with the full byte, the upper nibble and the lower nibble, in that
    order.  For a hypothesis it sends one frame for each counter value of the
    field's full range, four times over, every frame carrying the
    [bmw_3fd_crc] of its 4-byte body as first byte; it then waits, reads the
    DTCs once, and prints the hypothesis exactly when the status of e09402
    is not 0x2f. *)
Theorem find_counter_fields_hypotheses (B : Bus) :
  (forall w : world B,
      find_counter_fields B w
      = for_ counter_hypotheses (fun h => counter_trial B (fst h) (snd h)) w)
  /\ (forall byte shape,
        In (byte, shape) counter_hypotheses <->
        (0 <= byte < 4
         /\ (shape = full_byte \/ shape = upper_nibble \/ shape = lower_nibble)))
  /\ (forall byte shape,
        In (byte, shape) counter_hypotheses ->
        counter_messages byte shape
        = map (counter_message byte (snd shape))
            (range (fst shape + 1) ++ range (fst shape + 1)
             ++ range (fst shape + 1) ++ range (fst shape + 1))
        /\ forall m, In m (counter_messages byte shape) ->
             arbitration_id m = 0x3FD
             /\ exists body, List.length body = 4%nat
                             /\ data m = bmw_3fd_crc body :: body)
  /\ (forall byte shape (w wc w' : world B) table ev status,
        In (byte, shape) counter_hypotheses ->
        after_frames B (counter_messages byte shape) w = Some wc ->
        get_dtcs B 0x0C (time_sleep B 100 wc) = (Ok (Some table), w', ev) ->
        dict_lookup "e09402" table = Some status ->
        counter_trial B byte shape w
        = (Ok tt, w',
           frame_events (counter_messages byte shape)
           ++ Slept 100 :: ev
           ++ (if status =? 0x2f then [] else counter_report byte shape status))).
Proof.
  split; [apply find_counter_fields_flat|].
  split; [|split].
  - intros byte shape. rewrite hypothesis_parts. unfold counter_shapes.
    cbn [In]. unfold full_byte, upper_nibble, lower_nibble.
    intuition (auto; congruence).
  - intros byte shape Hh. apply hypothesis_parts in Hh. destruct Hh as [Hbyte _].
    split.
    + unfold counter_messages, counter_cycle, list_times. cbn [repeat List.concat].
      now rewrite app_nil_r.
    + intros m Hm. unfold counter_messages in Hm. apply in_map_iff in Hm.
      destruct Hm as (c & <- & _). split; [reflexivity|].
      exists (counter_body byte (snd shape) c). split; [|reflexivity].
      assert (E : byte = 0 \/ byte = 1 \/ byte = 2 \/ byte = 3) by lia.
      destruct E as [-> | [-> | [-> | ->]]]; reflexivity.
  - intros byte shape w wc w' table ev status Hh Hsends Hdtcs Hstatus.
    rewrite (counter_trial_run B w Hh Hsends), Hdtcs.
    cbn [counter_outcome]. rewrite Hstatus. reflexivity.
Qed.

Lemma find_counter_fields_hypotheses_witness :
  exists w' ev,
    counter_trial counter_bus 1 upper_nibble double_init
    = (Ok tt, w',
       frame_events (counter_messages 1 upper_nibble)
       ++ Slept 100 :: ev
       ++ [Printed "Counter byte 1 mask 0xf0"; Printed "   E09402 -> 0x2c"]).
Proof.
  eexists. eexists.
  eapply (proj2 (proj2 (proj2 (find_counter_fields_hypotheses counter_bus)))
            1 upper_nibble double_init _ _ _ _ 0x2c).
  - cbn. tauto.
  - vm_compute. reflexivity.
  - vm_compute. reflexivity.
  - reflexivity.
Defined.

(** A whole run on a gear selector that degrades only for the upper nibble
    of body byte 1 prints that hypothesis and no other. *)
Example find_counter_fields_counter_bus :
  let run := find_counter_fields counter_bus double_init in
  fst (fst run) = Ok tt
  /\ count_sent (snd run) = 4608%nat
  /\ count_requested (snd run) = 12%nat
  /\ filter (fun e => match e with Printed _ => true | _ => false end) (snd run)
     = [Printed "Counter byte 1 mask 0xf0"; Printed "   E09402 -> 0x2c"].
Proof. vm_compute. repeat split. Qed.

(** ** Runs of the checksum verification that return *)

Lemma send_loop_fails (B : Bus) (frames : list can_message) (w : world B) :
  after_frames B frames w = None ->
  exists e w' ev, for_ frames (fun m => send B m ;; sleep B 10) w = (Raise e, w', ev).
Proof.
  revert w. induction frames as [|m frames IH]; intros w H; cbn [after_frames] in H.
  - discriminate.
  - cbn [for_]. destruct (bus_send B m w) as [[[]|e] w'] eqn:E.
    + destruct (IH _ H) as (e & w2 & ev & Hrest).
      exists e, w2, ([Sent m; Slept 10] ++ ev).
      erewrite bind_ok; [|unfold bind, send, sleep; rewrite E; reflexivity].
      now rewrite Hrest.
    + exists e, w', [Sent m].
      unfold bind at 1. unfold bind at 1. unfold send. now rewrite E.
Qed.

(** A run of [verify_checksum] that returns has put its payload on the bus
    exactly 16 times. *)
Lemma verify_checksum_returns (B : Bus) (payload : list Z) (w w' : world B)
    (valid : bool) (ev : list event) :
  verify_checksum B payload w = (Ok valid, w', ev) ->
  sent_payloads ev = repeat payload 16.
Proof.
  intros Hrun.
  destruct (forallb is_byte payload) eqn:Hbytes.
  - destruct (after_frames B (repeat (mk_message 0x3FD payload false) 16) w)
      as [w16|] eqn:Hsends.
    + rewrite (verify_checksum_run B payload w Hbytes Hsends) in Hrun.
      pose proof (get_dtcs_sends_nothing B 0x0C (time_sleep B 100 w16)) as Hnone.
      destruct (get_dtcs B 12 (time_sleep B 100 w16)) as [[dtcs w2] ev2].
      cbn [snd] in Hnone.
      apply (f_equal snd) in Hrun. cbn [snd] in Hrun. rewrite <- Hrun.
      rewrite sent_payloads_app, sent_payloads_frames.
      change (Slept 100 :: ev2) with ([Slept 100] ++ ev2).
      rewrite sent_payloads_app, Hnone. cbn [sent_payloads flat_map app].
      rewrite app_nil_r. reflexivity.
    + exfalso. unfold verify_checksum, can_Message in Hrun. rewrite Hbytes in Hrun.
      rewrite bind_lift_ok in Hrun.
      destruct (send_loop_fails _ _ _ Hsends) as (e & w2 & ev2 & Hfail).
      change (repeat (mk_message 0x3FD payload false) 16)
        with (map (fun _ : Z => mk_message 0x3FD payload false) (range 16)) in Hfail.
      rewrite for_map in Hfail.
      erewrite bind_raise in Hrun by exact Hfail. discriminate.
  - exfalso. unfold verify_checksum, can_Message in Hrun. rewrite Hbytes in Hrun.
    unfold bind, lift in Hrun. discriminate.
Qed.

Lemma rejected_sent (B : Bus) (message cands : list Z) (w w1 : world B)
    (ev1 : list event) :
  rejected B message cands w = Some (w1, ev1) ->
  sent_payloads ev1 = flat_map (fun c => repeat (c :: message) 16) cands.
Proof.
  revert w ev1. induction cands as [|c cands IH]; intros w ev1 H; cbn [rejected] in H.
  - now injection H as _ <-.
  - destruct (verify_checksum B (c :: message) w) as [[[[|]|e] w'] ev] eqn:E;
      try discriminate.
    destruct (rejected B message cands w') as [[w'' ev']|] eqn:E'; [|discriminate].
    injection H as -> <-.
    rewrite sent_payloads_app, (verify_checksum_returns _ _ _ E), (IH _ _ E').
    reflexivity.
Qed.

(** ** An absent table *)

(** C9: when [get_dtcs] gives up and returns [None], [verify_checksum] and
    the trials of [find_counter_fields] do not reach a verdict: the lookup on
    [None] raises an attribute error, which ends the whole search.  The
    default "missing" only comes into play for a decoded table that lacks
    the identifier, and then [verify_checksum] answers [False]. *)
Theorem absent_table_aborts (B : Bus) :
  (forall payload (w w16 w' : world B) ev,
      forallb is_byte payload = true ->
      after_frames B (repeat (mk_message 0x3FD payload false) 16) w = Some w16 ->
      get_dtcs B 0x0C (time_sleep B 100 w16) = (Ok None, w', ev) ->
      verify_checksum B payload w
      = (Raise (AttributeError "'NoneType' object has no attribute 'get'"), w',
         frame_events (repeat (mk_message 0x3FD payload false) 16) ++ Slept 100 :: ev))
  /\ (forall byte shape (w wc w' : world B) ev,
        In (byte, shape) counter_hypotheses ->
        after_frames B (counter_messages byte shape) w = Some wc ->
        get_dtcs B 0x0C (time_sleep B 100 wc) = (Ok None, w', ev) ->
        counter_trial B byte shape w
        = (Raise (AttributeError "'NoneType' object has no attribute 'get'"), w',
           frame_events (counter_messages byte shape) ++ Slept 100 :: ev))
  /\ (forall pre h post (w w1 w2 : world B) ev1 ev2 e,
        counter_hypotheses = pre ++ h :: post ->
        for_ pre (fun h => counter_trial B (fst h) (snd h)) w = (Ok tt, w1, ev1) ->
        counter_trial B (fst h) (snd h) w1 = (Raise e, w2, ev2) ->
        find_counter_fields B w = (Raise e, w2, ev1 ++ ev2))
  /\ (forall payload (w w16 w' : world B) table ev,
        forallb is_byte payload = true ->
        after_frames B (repeat (mk_message 0x3FD payload false) 16) w = Some w16 ->
        get_dtcs B 0x0C (time_sleep B 100 w16) = (Ok (Some table), w', ev) ->
        dict_lookup "e09404" table = None ->
        verify_checksum B payload w
        = (Ok false, w',
           frame_events (repeat (mk_message 0x3FD payload false) 16)
           ++ Slept 100 :: ev)).
Proof.
  split; [|split; [|split]].
  - intros payload w w16 w' ev Hbytes Hsends Hdtcs.
    now rewrite (verify_checksum_run B payload w Hbytes Hsends), Hdtcs.
  - intros byte shape w wc w' ev Hh Hsends Hdtcs.
    rewrite (counter_trial_run B w Hh Hsends), Hdtcs.
    cbn [counter_outcome fst snd]. now rewrite app_nil_r.
  - intros pre h post w w1 w2 ev1 ev2 e Hsplit Hpre Hh.
    rewrite find_counter_fields_flat, Hsplit.
    now apply for_abort with (w1 := w1).
  - intros payload w w16 w' table ev Hbytes Hsends Hdtcs Hmissing.
    rewrite (verify_checksum_run B payload w Hbytes Hsends), Hdtcs.
    unfold checksum_verdict. cbn [rbind py_get]. now rewrite Hmissing.
Qed.

Lemma absent_table_aborts_witness :
  (exists w' ev,
      verify_checksum silent_bus [0x37; 0x01; 0x02; 0x03; 0x04] double_init
      = (Raise (AttributeError "'NoneType' object has no attribute 'get'"), w', ev))
  /\ (exists w' ev,
        find_counter_fields silent_bus double_init
        = (Raise (AttributeError "'NoneType' object has no attribute 'get'"), w', ev)).
Proof.
  split.
  - eexists. eexists.
    eapply (proj1 (absent_table_aborts silent_bus)
              [0x37; 0x01; 0x02; 0x03; 0x04] double_init).
    + reflexivity.
    + vm_compute. reflexivity.
    + vm_compute. reflexivity.
  - eexists. eexists.
    eapply (proj1 (proj2 (proj2 (absent_table_aborts silent_bus)))
              [] (0, full_byte) _ double_init double_init _ [] _ _).
    + reflexivity.
    + reflexivity.
    + eapply (proj1 (proj2 (absent_table_aborts silent_bus)) 0 full_byte).
      * cbn. tauto.
      * vm_compute. reflexivity.
      * vm_compute. reflexivity.
Defined.

(** ** The checksum search *)

Lemma range_split (n c : Z) :
  0 <= c < n -> exists tail, range n = range c ++ c :: tail.
Proof.
  intros H. unfold range.
  replace (Z.to_nat n) with (Z.to_nat c + S (Z.to_nat (n - c - 1)))%nat by lia.
  rewrite seq_app, map_app. cbn [seq map Nat.add]. rewrite Z2Nat.id by lia.
  eexists. reflexivity.
Qed.

Section ChecksumSearch.

Variable B : Bus.
Variable message : list Z.

Lemma search_past_rejected (cands rest : list Z) (w w1 : world B) (ev1 : list event) :
  rejected B message cands w = Some (w1, ev1) ->
  for_return (cands ++ rest) (try_candidate B message) w
  = (let '(r, w2, ev2) := for_return rest (try_candidate B message) w1 in (r, w2, ev1 ++ ev2)).
Proof.
  revert w ev1. induction cands as [|c cands IH]; intros w ev1 H; cbn [rejected] in H.
  - injection H as -> <-. cbn [app].
    now destruct (for_return rest (try_candidate B message) w1) as [[r w2] ev2].
  - destruct (verify_checksum B (c :: message) w) as [[[[|]|e] w'] ev] eqn:E;
      try discriminate.
    destruct (rejected B message cands w') as [[w'' ev']|] eqn:E'; [|discriminate].
    injection H as -> <-.
    cbn [app for_return].
    erewrite bind_ok.
    2:{ unfold try_candidate. cbn [app]. erewrite bind_ok by exact E. reflexivity. }
    cbv beta iota. rewrite (IH _ _ E').
    destruct (for_return rest (try_candidate B message) w1) as [[r w2] ev2].
    now rewrite app_nil_r, app_assoc.
Qed.

Lemma find_checksum_found (c : Z) (w w1 w2 : world B) (ev1 ev2 : list event) :
  len message = 4 -> 0 <= c < 256 ->
  rejected B message (range c) w = Some (w1, ev1) ->
  verify_checksum B (c :: message) w1 = (Ok true, w2, ev2) ->
  find_checksum B message w = (Ok c, w2, ev1 ++ ev2).
Proof.
  intros Hlen Hc Hrej Hvalid. unfold find_checksum. rewrite Hlen.
  change (negb (4 =? 4)) with false. cbv iota. rewrite bind_ret.
  destruct (range_split Hc) as [tail ->].
  erewrite bind_ok.
  2:{ fold (try_candidate B message). rewrite (@search_past_rejected _ (c :: tail) _ _ _ Hrej).
      cbn [for_return].
      erewrite bind_ok.
      2:{ unfold try_candidate. cbn [app]. erewrite bind_ok by exact Hvalid. reflexivity. }
      reflexivity. }
  unfold ret. now rewrite !app_nil_r.
Qed.

Lemma find_checksum_exhausted (w w1 : world B) (ev1 : list event) :
  len message = 4 ->
  rejected B message (range 256) w = Some (w1, ev1) ->
  find_checksum B message w
  = (Raise (RuntimeError "No valid checksum found..."), w1, ev1).
Proof.
  intros Hlen Hrej. unfold find_checksum. rewrite Hlen.
  change (negb (4 =? 4)) with false. cbv iota. rewrite bind_ret.
  erewrite bind_ok.
  2:{ fold (try_candidate B message). rewrite <- (app_nil_r (range 256)).
      rewrite (@search_past_rejected _ [] _ _ _ Hrej). reflexivity. }
  unfold raise. now rewrite !app_nil_r.
Qed.

(** A run of [verify_checksum] that raises ends the search with its error. *)
Lemma find_checksum_aborts (c : Z) (w w1 w2 : world B) (ev1 ev2 : list event) (e : exn) :
  len message = 4 -> 0 <= c < 256 ->
  rejected B message (range c) w = Some (w1, ev1) ->
  verify_checksum B (c :: message) w1 = (Raise e, w2, ev2) ->
  find_checksum B message w = (Raise e, w2, ev1 ++ ev2).
Proof.
  intros Hlen Hc Hrej Hraise. unfold find_checksum. rewrite Hlen.
  change (negb (4 =? 4)) with false. cbv iota. rewrite bind_ret.
  destruct (range_split Hc) as [tail ->].
  erewrite bind_raise; [reflexivity|].
  fold (try_candidate B message). rewrite (@search_past_rejected _ (c :: tail) _ _ _ Hrej).
  cbn [for_return].
  erewrite bind_raise; [reflexivity|].
  unfold try_candidate. cbn [app]. now erewrite bind_raise by exact Hraise.
Qed.

End ChecksumSearch.

(** C1: for a 4-byte body, [find_checksum] runs [verify_checksum] on the
    candidates 0x00, 0x01, ... in ascending order, each prefixed to the body.
    It returns the first candidate that [verify_checksum] accepts, and when
    all 256 candidates were turned down it fails with the error "No valid
    checksum found...", having run all 256: the frames on the bus are then
    16 copies for candidate 0x00, 16 for 0x01, and so on up to 0xFF. *)
Theorem find_checksum_first_valid (B : Bus) (message : list Z) (w : world B) :
  len message = 4 ->
  (forall (c : Z) (w1 w2 : world B) (ev1 ev2 : list event),
      0 <= c < 256 ->
      rejected B message (range c) w = Some (w1, ev1) ->
      verify_checksum B (c :: message) w1 = (Ok true, w2, ev2) ->
      find_checksum B message w = (Ok c, w2, ev1 ++ ev2)
      /\ sent_payloads (ev1 ++ ev2)
         = flat_map (fun c' => repeat (c' :: message) 16) (range c)
           ++ repeat (c :: message) 16)
  /\ (forall (w1 : world B) (ev1 : list event),
        rejected B message (range 256) w = Some (w1, ev1) ->
        find_checksum B message w
        = (Raise (RuntimeError "No valid checksum found..."), w1, ev1)
        /\ sent_payloads ev1
           = flat_map (fun c => repeat (c :: message) 16) (range 256)).
Proof.
  intros Hlen. split.
  - intros c w1 w2 ev1 ev2 Hc Hrej Hvalid. split.
    + now apply find_checksum_found with (w1 := w1).
    + rewrite sent_payloads_app, (rejected_sent _ _ _ _ Hrej).
      now rewrite (verify_checksum_returns _ _ _ Hvalid).
  - intros w1 ev1 Hrej. split.
    + now apply find_checksum_exhausted.
    + apply (rejected_sent _ _ _ _ Hrej).
Qed.

Lemma find_checksum_first_valid_witness :
  (exists w' ev,
      find_checksum scenario_bus [0x01; 0x02; 0x03; 0x04] double_init = (Ok 0x37, w', ev))
  /\ (exists w' ev,
        find_checksum stubborn_bus [0x01; 0x02; 0x03; 0x04] double_init
        = (Raise (RuntimeError "No valid checksum found..."), w', ev)
        /\ count_sent ev = (256 * 16)%nat).
Proof.
  split.
  - edestruct (proj1 (find_checksum_first_valid scenario_bus
                        [0x01; 0x02; 0x03; 0x04] double_init eq_refl) 0x37)
      as [Hrun _].
    + lia.
    + vm_compute. reflexivity.
    + vm_compute. reflexivity.
    + eexists. eexists. exact Hrun.
  - edestruct (proj2 (find_checksum_first_valid stubborn_bus
                        [0x01; 0x02; 0x03; 0x04] double_init eq_refl))
      as [Hrun _].
    + vm_compute. reflexivity.
    + eexists. eexists. split; [exact Hrun|]. vm_compute. reflexivity.
Defined.

(** C3: after the burst, [verify_checksum] answers [True] exactly when the
    decoded table gives e09404 the status 0x2e; the status 0x2f of a healthy
    checksum mechanism makes it answer [False].  On the gear selector of the
    end-to-end scenario, which reports 0x2f unless the last frame was
    [0x37, 0x01, 0x02, 0x03, 0x04], the search for the body
    [0x01, 0x02, 0x03, 0x04] returns 0x37. *)
Theorem verify_checksum_verdict :
  (forall (B : Bus) payload (w w16 w' : world B) table ev,
      forallb is_byte payload = true ->
      after_frames B (repeat (mk_message 0x3FD payload false) 16) w = Some w16 ->
      get_dtcs B 0x0C (time_sleep B 100 w16) = (Ok (Some table), w', ev) ->
      exists valid,
        verify_checksum B payload w
        = (Ok valid, w',
           frame_events (repeat (mk_message 0x3FD payload false) 16) ++ Slept 100 :: ev)
        /\ (valid = true <-> dict_lookup "e09404" table = Some 0x2e)
        /\ (dict_lookup "e09404" table = Some 0x2f -> valid = false))
  /\ (forall (w : double_state) (req : list Z),
        exists status,
          fst (isotp_request scenario_bus req w)
          = Some [0x59; 0x02; 0xff; 0xe0; 0x94; 0x04; status]
          /\ (last_frame w = Some [0x37; 0x01; 0x02; 0x03; 0x04] -> status = 0x2e)
          /\ (last_frame w <> Some [0x37; 0x01; 0x02; 0x03; 0x04] -> status = 0x2f))
  /\ forallb (fun c =>
                match fst (fst (verify_checksum scenario_bus
                                  [c; 0x01; 0x02; 0x03; 0x04] double_init)) with
                | Ok valid => Bool.eqb valid (c =? 0x37)
                | Raise _ => false
                end) (range 256) = true
  /\ fst (fst (find_checksum scenario_bus [0x01; 0x02; 0x03; 0x04] double_init))
     = Ok 0x37.
Proof.
  split; [|split; [|split]].
  - intros B payload w w16 w' table ev Hbytes Hsends Hdtcs.
    rewrite (verify_checksum_run B payload w Hbytes Hsends), Hdtcs.
    unfold checksum_verdict. cbn [rbind py_get].
    destruct (dict_lookup "e09404" table) as [status|].
    + exists (status =? 0x2e). split; [reflexivity|]. split.
      * rewrite Z.eqb_eq. split; [now intros -> | now intros [= ->]].
      * now intros [= ->].
    + exists false. split; [reflexivity|]. split; [split|]; discriminate.
  - intros w req.
    exists (if frame_is [0x37; 0x01; 0x02; 0x03; 0x04] (last_frame w) then 0x2e else 0x2f).
    split; [reflexivity|]. unfold frame_is.
    destruct (last_frame w) as [f|].
    + destruct (list_eq_dec Z.eq_dec f [0x37; 0x01; 0x02; 0x03; 0x04]) as [->|Hne].
      * split; [reflexivity | intros H; now elim H].
      * split; [intros [= ->]; now elim Hne | reflexivity].
    + split; [discriminate | reflexivity].
  - vm_compute. reflexivity.
  - vm_compute. reflexivity.
Qed.

Lemma verify_checksum_verdict_witness :
  exists valid w' ev,
    verify_checksum scenario_bus [0x37; 0x01; 0x02; 0x03; 0x04] double_init
    = (Ok valid, w', ev)
    /\ (valid = true <-> dict_lookup "e09404" [("e09404", 0x2e)] = Some 0x2e).
Proof.
  destruct (proj1 verify_checksum_verdict scenario_bus
              [0x37; 0x01; 0x02; 0x03; 0x04] double_init
              (mk_double (Some [0x37; 0x01; 0x02; 0x03; 0x04]) 16 0)
              (mk_double (Some [0x37; 0x01; 0x02; 0x03; 0x04]) 16 1)
              [("e09404", 0x2e)]
              [Requested [0x19; 0x02; 0x0C] (Some [0x59; 0x02; 0xff; 0xe0; 0x94; 0x04; 0x2e])]
              eq_refl eq_refl eq_refl)
    as (valid & Hrun & Hiff & _).
  exists valid. eexists. eexists. split; [exact Hrun | exact Hiff].
Defined.

(** * Further properties of the decoder *)

Lemma dict_set_fresh (k : string) (v : Z) (d : dict) :
  ~ In k (dict_keys d) -> dict_set k v d = d ++ [(k, v)].
Proof.
  induction d as [|[k' v'] d IH]; intros Hfresh; [reflexivity|].
  cbn [dict_set]. destruct (String.eqb k' k) eqn:E.
  - apply String.eqb_eq in E. subst k'. elim Hfresh. now left.
  - cbn [app]. rewrite IH; [reflexivity|]. intros Hin. apply Hfresh. now right.
Qed.

Lemma dict_lookup_absent (k : string) (d : dict) :
  ~ In k (dict_keys d) -> dict_lookup k d = None.
Proof.
  induction d as [|[k' v'] d IH]; intros Hfresh; [reflexivity|].
  cbn [dict_lookup]. destruct (String.eqb k' k) eqn:E.
  - apply String.eqb_eq in E. subst k'. elim Hfresh. now left.
  - apply IH. intros Hin. apply Hfresh. now right.
Qed.

Lemma keys_distinct (recs : list dtc_record) :
  ids_in_range recs -> NoDup (map rec_id recs) ->
  NoDup (map (fun r => dtc_key (rec_id r)) recs).
Proof.
  induction recs as [|r recs IH]; intros Hrange Hnodup; [constructor|].
  pose proof (keys_in_iff Hrange) as Hiff.
  inversion Hrange as [|? ? Hr Hrecs]; subst.
  inversion Hnodup as [|? ? Hnotin Hrest]; subst.
  cbn [map]. constructor; [|now apply IH]. now rewrite Hiff.
Qed.

(** With pairwise distinct keys the table lists the records as they come. *)
Lemma table_of_distinct (recs : list dtc_record) :
  NoDup (map (fun r => dtc_key (rec_id r)) recs) ->
  table_of recs [] = map (fun r => (dtc_key (rec_id r), rec_status r)) recs.
Proof.
  induction recs as [|r recs IH] using rev_ind; intros Hnodup; [reflexivity|].
  rewrite map_app in Hnodup. cbn [map] in Hnodup.
  apply NoDup_remove in Hnodup. rewrite app_nil_r in Hnodup.
  destruct Hnodup as [Hrest Hfresh].
  rewrite table_of_snoc, IH by assumption.
  rewrite dict_set_fresh.
  - now rewrite map_app.
  - unfold dict_keys. rewrite map_map. cbn [fst]. exact Hfresh.
Qed.

Lemma encoded_ids_in_range (h1 h2 : Z) (recs : list dtc_record) :
  all_bytes (encode_response h1 h2 recs) -> ids_in_range recs.
Proof.
  unfold all_bytes, encode_response. intros H.
  apply Forall_app in H. destruct H as [_ H].
  induction recs as [|[[[a b] c] s] recs IH]; [constructor|].
  cbn [flat_map] in H. apply Forall_app in H. destruct H as [Hr Hrest].
  constructor; [|now apply IH].
  unfold encode_record in Hr. cbn [rec_id rec_status id_bytes app] in Hr.
  inversion Hr as [|? ? Ha Hr1]; subst. inversion Hr1 as [|? ? Hb Hr2]; subst.
  inversion Hr2 as [|? ? Hc _]; subst. cbn. auto.
Qed.

Lemma byte_of_hex_inv (b : Z) :
  0 <= b < 256 -> byte_of_hex (hex_digit (b / 16)) (hex_digit (b mod 16)) = b.
Proof.
  intros Hb. unfold byte_of_hex.
  rewrite !value_of_hex_digit_inv
    by (try apply Z.mod_pos_bound;
        try (split; [apply Z.div_pos | apply Z.div_lt_upper_bound]); lia).
  pose proof (Z.div_mod b 16). lia.
Qed.

Lemma id_of_key_inv (id : Z * Z * Z) : id_in_range id -> id_of_key (dtc_key id) = id.
Proof.
  destruct id as [[a b] c]. intros (Ha & Hb & Hc).
  unfold dtc_key. cbn [id_bytes bytes_hex id_of_key].
  now rewrite !byte_of_hex_inv.
Qed.

(** X1: when the identifiers of a response are pairwise distinct, the
    decoded table is the list of its records, key and status, in the order
    of the response. *)
Theorem decode_distinct_records (h1 h2 : Z) (recs : list dtc_record) :
  ids_in_range recs ->
  NoDup (map rec_id recs) ->
  decode_dtcdata (Some (encode_response h1 h2 recs))
  = Ok (map (fun r => (dtc_key (rec_id r), rec_status r)) recs).
Proof.
  intros Hrange Hnodup. rewrite decode_encode.
  f_equal. apply table_of_distinct. now apply keys_distinct.
Qed.

Lemma decode_distinct_records_witness :
  decode_dtcdata
    (Some [0x59; 0x02; 0xff; 0xe0; 0x94; 0x04; 0x2f; 0xe0; 0x94; 0x02; 0x2c])
  = Ok [("e09404", 0x2f); ("e09402", 0x2c)].
Proof.
  apply (@decode_distinct_records 0x02 0xff
           [mk_record (0xe0, 0x94, 0x04) 0x2f; mk_record (0xe0, 0x94, 0x02) 0x2c]).
  - repeat constructor; cbn; lia.
  - repeat constructor; simpl; intuition congruence.
Defined.

Lemma table_keys_sound (recs : list dtc_record) (k : string) :
  In k (dict_keys (table_of recs [])) ->
  In k (map (fun r => dtc_key (rec_id r)) recs).
Proof.
  rewrite table_keys. unfold first_occurrences.
  intros H. apply in_rev in H. apply nodup_In in H. now apply in_rev in H.
Qed.

Lemma table_keys_NoDup (recs : list dtc_record) : NoDup (dict_keys (table_of recs [])).
Proof.
  rewrite table_keys. unfold first_occurrences. apply NoDup_rev, NoDup_nodup.
Qed.

(** Every key of a table built from in-range identifiers is the key of the
    identifier it is read back as. *)
Lemma table_key_inv (recs : list dtc_record) (k : string) :
  ids_in_range recs ->
  In k (dict_keys (table_of recs [])) ->
  id_in_range (id_of_key k) /\ dtc_key (id_of_key k) = k.
Proof.
  intros Hrange Hin. apply table_keys_sound in Hin. apply in_map_iff in Hin.
  destruct Hin as (r & <- & Hr).
  unfold ids_in_range in Hrange. rewrite Forall_forall in Hrange.
  rewrite id_of_key_inv by now apply Hrange. split; [now apply Hrange | reflexivity].
Qed.

(** X2: writing the decoded table back in the layout of a response, one
    record per entry, and decoding again gives the same table. *)
Theorem decode_reencode (data : list Z) (table : dict) (h1 h2 : Z) :
  all_bytes data ->
  decode_dtcdata (Some data) = Ok table ->
  decode_dtcdata (Some (encode_response h1 h2 (table_records table))) = Ok table.
Proof.
  intros Hbytes Hdec.
  destruct (decode_cases data)
    as [[-> E] | [(tag & rest & -> & Hne & E) | [(rest & -> & Hmod & E)
       | (g1 & g2 & recs & -> & E)]]]; rewrite E in Hdec; try discriminate.
  injection Hdec as <-.
  pose proof (encoded_ids_in_range Hbytes) as Hrange.
  set (table := table_of recs []).
  assert (Hkeys : map (fun r => dtc_key (rec_id r)) (table_records table)
                  = dict_keys table).
  { unfold table_records, dict_keys. rewrite map_map. apply map_ext_in.
    intros [k v] Hin. cbn [rec_id fst].
    apply (@table_key_inv recs k Hrange). unfold dict_keys.
    apply in_map_iff. now exists (k, v). }
  rewrite decode_encode, table_of_distinct
    by (rewrite Hkeys; apply table_keys_NoDup).
  f_equal. unfold table_records. rewrite map_map.
  rewrite <- (map_id table) at 2. apply map_ext_in.
  intros [k v] Hin. cbn [rec_id rec_status fst snd]. f_equal.
  apply (@table_key_inv recs k Hrange). unfold dict_keys.
  apply in_map_iff. now exists (k, v).
Qed.

Lemma decode_reencode_witness :
  decode_dtcdata
    (Some (encode_response 0x02 0xff
             (table_records [("e09404", 0x2e); ("e09402", 0x2c)])))
  = Ok [("e09404", 0x2e); ("e09402", 0x2c)].
Proof.
  apply (@decode_reencode
           [0x59; 0x02; 0xff; 0xe0; 0x94; 0x04; 0x2f; 0xe0; 0x94; 0x02; 0x2c;
            0xe0; 0x94; 0x04; 0x2e]).
  - repeat constructor; lia.
  - reflexivity.
Defined.

Lemma hex_digit_is_hex (d : Z) : 0 <= d < 16 -> is_hex_char (hex_digit d) = true.
Proof.
  intros H.
  assert (E : d = 0 \/ d = 1 \/ d = 2 \/ d = 3 \/ d = 4 \/ d = 5 \/ d = 6 \/ d = 7 \/
              d = 8 \/ d = 9 \/ d = 10 \/ d = 11 \/ d = 12 \/ d = 13 \/ d = 14 \/ d = 15)
    by lia.
  repeat (destruct E as [-> | E]; [reflexivity|]). subst d. reflexivity.
Qed.

Lemma dtc_key_is_key (id : Z * Z * Z) : id_in_range id -> is_dtc_key (dtc_key id) = true.
Proof.
  destruct id as [[a b] c]. intros (Ha & Hb & Hc).
  unfold dtc_key, is_dtc_key. cbn [id_bytes bytes_hex String.length Nat.eqb all_hex andb].
  rewrite !hex_digit_is_hex
    by (try apply Z.mod_pos_bound;
        try (split; [apply Z.div_pos | apply Z.div_lt_upper_bound]); lia).
  reflexivity.
Qed.

(** X3: the keys of a decoded table are six lowercase hexadecimal digits, so
    a lookup under any other spelling of an identifier, such as the
    uppercase one the messages of the module print, finds nothing and yields
    the default. *)
Theorem decoded_keys_lowercase (data : list Z) (table : dict) :
  all_bytes data ->
  decode_dtcdata (Some data) = Ok table ->
  (forall k, In k (dict_keys table) -> is_dtc_key k = true)
  /\ (forall key default,
        is_dtc_key key = false -> py_get (Some table) key default = Ok default).
Proof.
  intros Hbytes Hdec.
  destruct (decode_cases data)
    as [[-> E] | [(tag & rest & -> & Hne & E) | [(rest & -> & Hmod & E)
       | (g1 & g2 & recs & -> & E)]]]; rewrite E in Hdec; try discriminate.
  injection Hdec as <-.
  pose proof (encoded_ids_in_range Hbytes) as Hrange.
  assert (Hkeys : forall k, In k (dict_keys (table_of recs [])) -> is_dtc_key k = true).
  { intros k Hin. destruct (@table_key_inv recs k Hrange Hin) as [Hid <-].
    now apply dtc_key_is_key. }
  split; [exact Hkeys|].
  intros key default Hkey. cbn [py_get]. rewrite dict_lookup_absent; [reflexivity|].
  intros Hin. apply Hkeys in Hin. congruence.
Qed.

Lemma decoded_keys_lowercase_witness :
  py_get (Some [("e09404", 0x2f)]) "E09404" (PStr "missing") = Ok (PStr "missing").
Proof.
  apply (proj2 (@decoded_keys_lowercase
                  [0x59; 0x02; 0xff; 0xe0; 0x94; 0x04; 0x2f] [("e09404", 0x2f)]
                  ltac:(repeat constructor; lia) eq_refl)).
  reflexivity.
Defined.

(** * Properties of the checksums *)

Lemma land_byte (a : Z) : 0 <= Z.land a 0xFF < 256.
Proof.
  change 0xFF with (Z.ones 8). rewrite Z.land_ones by lia.
  apply Z.mod_pos_bound. lia.
Qed.

Lemma land_byte_id (a : Z) : 0 <= a < 256 -> Z.land a 0xFF = a.
Proof.
  intros H. change 0xFF with (Z.ones 8). rewrite Z.land_ones by lia.
  apply Z.mod_small. lia.
Qed.

Lemma lxor_byte (a b : Z) : 0 <= a < 256 -> 0 <= b < 256 -> 0 <= Z.lxor a b < 256.
Proof.
  intros Ha Hb.
  assert (E : Z.lxor a b = Z.land (Z.lxor a b) 0xFF).
  { rewrite <- (land_byte_id Ha) at 1. rewrite <- (land_byte_id Hb) at 1.
    apply Z.bits_inj'. intros n Hn.
    rewrite !Z.land_spec, !Z.lxor_spec, !Z.land_spec.
    destruct (Z.testbit a n), (Z.testbit b n), (Z.testbit 255 n); reflexivity. }
  rewrite E. apply land_byte.
Qed.

Lemma crc_process_byte_map (r b : Z) : crc_process_byte r b = crc_byte_map (Z.lxor r b).
Proof. reflexivity. Qed.

Lemma crc_process_byte_is_byte (r b : Z) : 0 <= crc_process_byte r b < 256.
Proof. unfold crc_process_byte. apply land_byte. Qed.

Lemma crc_fold_is_byte (data : list Z) (r : Z) :
  0 <= r < 256 -> 0 <= fold_left crc_process_byte data r < 256.
Proof.
  revert r. induction data as [|b data IH]; intros r Hr; [exact Hr|].
  cbn [fold_left]. apply IH. apply crc_process_byte_is_byte.
Qed.

Lemma crc_register_is_byte (data : list Z) : 0 <= crc_register data < 256.
Proof. apply crc_fold_is_byte. unfold crc_initvalue. lia. Qed.

Lemma crc_calc_register (xor_output : Z) (data : list Z) :
  crc_calc xor_output data = Z.lxor (crc_register data) xor_output.
Proof. reflexivity. Qed.

Lemma crc_register_snoc (data : list Z) (b : Z) :
  crc_register (data ++ [b]) = crc_process_byte (crc_register data) b.
Proof. unfold crc_register. now rewrite fold_left_app. Qed.

Lemma bmw_3fd_crc_register (message : list Z) :
  bmw_3fd_crc message = Z.lxor (crc_register message) 0x70.
Proof.
  unfold bmw_3fd_crc. rewrite crc_calc_register.
  apply land_byte_id, lxor_byte; [apply crc_register_is_byte | unfold crc_xor_output_3fd; lia].
Qed.

Lemma bmw_197_crc_register (message : list Z) :
  bmw_197_crc message = Z.lxor (crc_register message) 0x53.
Proof.
  unfold bmw_197_crc. rewrite crc_calc_register.
  apply land_byte_id, lxor_byte; [apply crc_register_is_byte | unfold crc_xor_output_197; lia].
Qed.

(** X4: both checksums are bytes, and they differ by the constant 0x23, the
    xor of their two output masks, on every message. *)
Theorem bmw_crcs_related (message : list Z) :
  0 <= bmw_3fd_crc message < 256
  /\ 0 <= bmw_197_crc message < 256
  /\ bmw_197_crc message = Z.lxor (bmw_3fd_crc message) 0x23.
Proof.
  split; [apply land_byte|]. split; [apply land_byte|].
  rewrite bmw_3fd_crc_register, bmw_197_crc_register, Z.lxor_assoc. reflexivity.
Qed.

(** X5: a receiver can check a frame by running the checksum over the body
    followed by the checksum with its output mask taken off: the result is
    the output mask itself, whatever the body. *)
Theorem bmw_crc_residue (message : list Z) :
  bmw_3fd_crc (message ++ [Z.lxor (bmw_3fd_crc message) 0x70]) = 0x70
  /\ bmw_197_crc (message ++ [Z.lxor (bmw_197_crc message) 0x53]) = 0x53.
Proof.
  split.
  - rewrite (bmw_3fd_crc_register (message ++ _)), crc_register_snoc.
    rewrite bmw_3fd_crc_register, Z.lxor_assoc. change (Z.lxor 0x70 0x70) with 0.
    rewrite Z.lxor_0_r, crc_process_byte_map, Z.lxor_nilpotent. reflexivity.
  - rewrite (bmw_197_crc_register (message ++ _)), crc_register_snoc.
    rewrite bmw_197_crc_register, Z.lxor_assoc. change (Z.lxor 0x53 0x53) with 0.
    rewrite Z.lxor_0_r, crc_process_byte_map, Z.lxor_nilpotent. reflexivity.
Qed.

Lemma crc_byte_map_unique (z : Z) :
  In z (range 256) ->
  find (fun y => crc_byte_map y =? crc_byte_map z) (range 256) = Some z.
Proof.
  assert (Hall : forallb (fun x =>
            match find (fun y => crc_byte_map y =? crc_byte_map x) (range 256) with
            | Some y => y =? x
            | None => false
            end) (range 256) = true) by (vm_compute; reflexivity).
  rewrite forallb_forall in Hall. intros Hz. specialize (Hall z Hz).
  destruct (find _ _) as [y|]; [|discriminate].
  apply Z.eqb_eq in Hall. now subst.
Qed.

Lemma crc_byte_map_inj (x y : Z) :
  0 <= x < 256 -> 0 <= y < 256 -> crc_byte_map x = crc_byte_map y -> x = y.
Proof.
  intros Hx Hy E.
  pose proof (crc_byte_map_unique (proj2 (in_range_iff 256 x) Hx)) as Fx.
  pose proof (crc_byte_map_unique (proj2 (in_range_iff 256 y) Hy)) as Fy.
  rewrite E in Fx. congruence.
Qed.

Lemma lxor_cancel_r (a b c : Z) : Z.lxor a c = Z.lxor b c -> a = b.
Proof.
  intros H. apply Z.lxor_eq.
  replace (Z.lxor a b) with (Z.lxor (Z.lxor a c) (Z.lxor b c)).
  - rewrite H. apply Z.lxor_nilpotent.
  - rewrite Z.lxor_assoc, (Z.lxor_comm b c), <- (Z.lxor_assoc c c b).
    now rewrite Z.lxor_nilpotent, Z.lxor_0_l.
Qed.

Lemma lxor_cancel_l (a b c : Z) : Z.lxor c a = Z.lxor c b -> a = b.
Proof. rewrite !(Z.lxor_comm c). apply lxor_cancel_r. Qed.

(** Registers that differ stay different while the same bytes are processed. *)
Lemma crc_fold_separates (post : list Z) (r r' : Z) :
  all_bytes post -> 0 <= r < 256 -> 0 <= r' < 256 -> r <> r' ->
  fold_left crc_process_byte post r <> fold_left crc_process_byte post r'.
Proof.
  revert r r'. induction post as [|b post IH]; intros r r' Hpost Hr Hr' Hne;
    [exact Hne|].
  inversion Hpost as [|? ? Hb Hrest]; subst. cbn [fold_left].
  apply IH; try assumption; try apply crc_process_byte_is_byte.
  rewrite !crc_process_byte_map. intros E.
  apply crc_byte_map_inj in E; try (apply lxor_byte; assumption).
  apply lxor_cancel_r in E. contradiction.
Qed.

(** X6: a corruption confined to one byte of a message always changes both
    checksums. *)
Theorem bmw_crc_detects_byte_error (pre post : list Z) (b b' : Z) :
  all_bytes post -> 0 <= b < 256 -> 0 <= b' < 256 -> b <> b' ->
  bmw_3fd_crc (pre ++ b :: post) <> bmw_3fd_crc (pre ++ b' :: post)
  /\ bmw_197_crc (pre ++ b :: post) <> bmw_197_crc (pre ++ b' :: post).
Proof.
  intros Hpost Hb Hb' Hne.
  assert (Hreg : crc_register (pre ++ b :: post) <> crc_register (pre ++ b' :: post)).
  { unfold crc_register. rewrite !fold_left_app. cbn [fold_left].
    fold (crc_register pre). pose proof (crc_register_is_byte pre) as Hr.
    apply crc_fold_separates; try assumption; try apply crc_process_byte_is_byte.
    rewrite !crc_process_byte_map. intros E.
    apply crc_byte_map_inj in E; try (apply lxor_byte; assumption).
    apply lxor_cancel_l in E. contradiction. }
  split.
  - rewrite !bmw_3fd_crc_register. intros E. apply lxor_cancel_r in E. contradiction.
  - rewrite !bmw_197_crc_register. intros E. apply lxor_cancel_r in E. contradiction.
Qed.

Lemma bmw_crc_detects_byte_error_witness :
  bmw_3fd_crc [0x01; 0x02; 0x03; 0x04] <> bmw_3fd_crc [0x01; 0x82; 0x03; 0x04].
Proof.
  apply (proj1 (@bmw_crc_detects_byte_error [0x01] [0x03; 0x04] 0x02 0x82
                  ltac:(repeat constructor; lia) ltac:(lia) ltac:(lia) ltac:(lia))).
Defined.

(** * Further properties of the oracle and of the checksum search *)

(** X7: [get_dtcs] retries a request that timed out, never one that was
    answered: when the first answer it gets is one the decoder rejects, the
    decoder's error ends the call at once, even if attempts are left. *)
Theorem get_dtcs_no_retry_on_malformed (B : Bus) (status_mask : Z) (k : nat)
    (w wk w' : world B) (resp : list Z) (e : exn) :
  (k < 3)%nat ->
  unanswered B [0x19; 0x02; status_mask] k w = Some wk ->
  isotp_request B [0x19; 0x02; status_mask] wk = (Some resp, w') ->
  decode_dtcdata (Some resp) = Raise e ->
  get_dtcs B status_mask w
  = (Raise e, w',
     repeat (Requested [0x19; 0x02; status_mask] None) k
     ++ [Requested [0x19; 0x02; status_mask] (Some resp)]).
Proof.
  intros Hk Hun Hresp Hdec.
  rewrite (get_dtcs_answered B status_mask w Hk Hun Hresp), Hdec. reflexivity.
Qed.

Lemma get_dtcs_no_retry_on_malformed_witness :
  get_dtcs negative_bus 0x0C double_init
  = (Raise (RuntimeError "Unexpected response tag 0x7f"), mk_double None 0 1,
     [Requested [0x19; 0x02; 0x0C] (Some [0x7f; 0x19; 0x31])]).
Proof.
  exact (@get_dtcs_no_retry_on_malformed negative_bus 0x0C 0 double_init double_init
           (mk_double None 0 1) [0x7f; 0x19; 0x31]
           (RuntimeError "Unexpected response tag 0x7f")
           (Nat.lt_0_succ 2) eq_refl eq_refl eq_refl).
Defined.

Lemma verify_checksum_not_bytes (B : Bus) (payload : list Z) (w : world B) :
  forallb is_byte payload = false ->
  verify_checksum B payload w
  = (Raise (ValueError "byte must be in range(0, 256)"), w, []).
Proof.
  intros H. unfold verify_checksum, can_Message. rewrite H. reflexivity.
Qed.

(** The whole of [find_checksum] in terms of its search loop. *)
Lemma find_checksum_search (B : Bus) (message : list Z) (w : world B) :
  find_checksum B message w
  = (let '(r, w', ev) := for_return (range 0x100) (try_candidate B message) w in
     (search_result r, w',
      (if len message =? 4 then [] else [Printed "WARNING: Expected 4 byte message"])
      ++ ev)).
Proof.
  unfold find_checksum. fold (try_candidate B message).
  destruct (len message =? 4); cbn [negb].
  - rewrite bind_ret. unfold bind.
    destruct (for_return (range 256) (try_candidate B message) w) as [[[[c|]|e] w'] ev];
      cbn [search_result app]; unfold ret, raise; now rewrite ?app_nil_r.
  - unfold bind at 1. unfold print at 1. unfold bind.
    destruct (for_return (range 256) (try_candidate B message) w) as [[[[c|]|e] w'] ev];
      cbn [search_result app]; unfold ret, raise; now rewrite ?app_nil_r.
Qed.

(** X8: a payload with an element that is not a byte never reaches the bus:
    [verify_checksum] raises when it builds the frame, with nothing sent and
    no request made, and [find_checksum] on such a body ends with that error
    at its first candidate. *)
Theorem non_byte_payload_rejected (B : Bus) (w : world B) :
  (forall payload,
      forallb is_byte payload = false ->
      verify_checksum B payload w
      = (Raise (ValueError "byte must be in range(0, 256)"), w, []))
  /\ (forall message,
        len message = 4 ->
        forallb is_byte message = false ->
        find_checksum B message w
        = (Raise (ValueError "byte must be in range(0, 256)"), w, [])).
Proof.
  split; [intros payload; apply verify_checksum_not_bytes|].
  intros message Hlen Hbytes.
  rewrite find_checksum_search, Hlen. change (4 =? 4) with true. cbv iota.
  change (range 256) with (0 :: map Z.of_nat (seq 1 255)). cbn [for_return].
  erewrite bind_raise; [reflexivity|].
  unfold try_candidate. cbn [app]. erewrite bind_raise; [reflexivity|].
  apply verify_checksum_not_bytes. cbn [forallb]. now rewrite Hbytes, andb_false_r.
Qed.

Lemma non_byte_payload_rejected_witness :
  find_checksum scenario_bus [0x01; 0x02; 0x100; 0x04] double_init
  = (Raise (ValueError "byte must be in range(0, 256)"), double_init, []).
Proof.
  exact (proj2 (non_byte_payload_rejected scenario_bus double_init)
           [0x01; 0x02; 0x100; 0x04] eq_refl eq_refl).
Defined.

(** X9: the length check of [find_checksum] only warns.  For a body that is
    not 4 bytes long the warning is printed first and the search then runs as
    for any other body: the first accepted candidate is returned, and 256
    rejections end in the error. *)
Theorem find_checksum_wrong_length (B : Bus) (message : list Z) (w : world B) :
  len message <> 4 ->
  (forall (c : Z) (w1 w2 : world B) (ev1 ev2 : list event),
      0 <= c < 256 ->
      rejected B message (range c) w = Some (w1, ev1) ->
      verify_checksum B (c :: message) w1 = (Ok true, w2, ev2) ->
      find_checksum B message w
      = (Ok c, w2, Printed "WARNING: Expected 4 byte message" :: ev1 ++ ev2))
  /\ (forall (w1 : world B) (ev1 : list event),
        rejected B message (range 256) w = Some (w1, ev1) ->
        find_checksum B message w
        = (Raise (RuntimeError "No valid checksum found..."), w1,
           Printed "WARNING: Expected 4 byte message" :: ev1)).
Proof.
  intros Hlen. apply Z.eqb_neq in Hlen. split.
  - intros c w1 w2 ev1 ev2 Hc Hrej Hvalid.
    rewrite find_checksum_search, Hlen.
    destruct (range_split Hc) as [tail ->].
    rewrite (@search_past_rejected B message _ (c :: tail) _ _ _ Hrej).
    cbn [for_return].
    erewrite bind_ok.
    2:{ unfold try_candidate. cbn [app]. erewrite bind_ok by exact Hvalid. reflexivity. }
    cbn [search_result app]. unfold ret. now rewrite !app_nil_r.
  - intros w1 ev1 Hrej.
    rewrite find_checksum_search, Hlen.
    rewrite <- (app_nil_r (range 256)).
    rewrite (@search_past_rejected B message _ [] _ _ _ Hrej).
    cbn [for_return search_result app]. unfold ret. now rewrite !app_nil_r.
Qed.

Lemma find_checksum_wrong_length_witness :
  exists w' ev,
    find_checksum scenario_bus [0x01; 0x02; 0x03] double_init
    = (Raise (RuntimeError "No valid checksum found..."), w',
       Printed "WARNING: Expected 4 byte message" :: ev).
Proof.
  eexists. eexists.
  eapply (proj2 (@find_checksum_wrong_length scenario_bus [0x01; 0x02; 0x03]
                   double_init ltac:(discriminate))).
  vm_compute. reflexivity.
Defined.

(** * What the runs put on the bus *)

Section Emits.

Variable B : Bus.
Variable P : event -> Prop.

Lemma emits_ret {A : Type} (a : A) : emits P (ret (B := B) a).
Proof. intros w. constructor. Qed.


Lemma emits_lift {A : Type} (r : result A) : emits P (lift (B := B) r).
Proof. intros w. constructor. Qed.

Lemma emits_bind_run {A C : Type} (m : io B A) (k : A -> io B C) :
  emits P m ->
  (forall a w w' ev, m w = (Ok a, w', ev) -> emits P (k a)) ->
  emits P (bind m k).
Proof.
  intros Hm Hk w. unfold bind. specialize (Hm w).
  destruct (m w) as [[[a|e] w1] ev1] eqn:E; cbn [snd] in *; [|exact Hm].
  specialize (Hk a w w1 ev1 E w1).
  destruct (k a w1) as [[r w2] ev2]. cbn [snd] in *.
  apply Forall_app. now split.
Qed.

Lemma emits_bind {A C : Type} (m : io B A) (k : A -> io B C) :
  emits P m -> (forall a, emits P (k a)) -> emits P (bind m k).
Proof. intros Hm Hk. apply emits_bind_run; auto. Qed.

Lemma emits_bind_lift {A C : Type} (r : result A) (k : A -> io B C) :
  (forall a, r = Ok a -> emits P (k a)) -> emits P (bind (lift r) k).
Proof.
  intros Hk. apply emits_bind_run; [apply emits_lift|].
  intros a w w' ev E. apply Hk. unfold lift in E. congruence.
Qed.

Lemma emits_for {A : Type} (l : list A) (body : A -> io B unit) :
  (forall x, In x l -> emits P (body x)) -> emits P (for_ l body).
Proof.
  induction l as [|x l IH]; intros H; cbn [for_]; [apply emits_ret|].
  apply emits_bind; [apply H; now left|].
  intros _. apply IH. intros y Hy. apply H. now right.
Qed.

Lemma emits_for_return {A R : Type} (l : list A) (body : A -> io B (option R)) :
  (forall x, In x l -> emits P (body x)) -> emits P (for_return l body).
Proof.
  induction l as [|x l IH]; intros H; cbn [for_return]; [apply emits_ret|].
  apply emits_bind; [apply H; now left|].
  intros [v|]; [apply emits_ret|]. apply IH. intros y Hy. apply H. now right.
Qed.

Lemma emits_send (m : can_message) : P (Sent m) -> emits P (send B m).
Proof.
  intros H w. unfold send. destruct (bus_send B m w). cbn [snd]. now constructor.
Qed.

Lemma emits_sleep (ms : Z) : P (Slept ms) -> emits P (sleep B ms).
Proof. intros H w. cbn. now constructor. Qed.

Lemma emits_print (line : string) : P (Printed line) -> emits P (print (B := B) line).
Proof. intros H w. cbn. now constructor. Qed.

Lemma emits_req (req : list Z) :
  (forall r, P (Requested req r)) -> emits P (req_isotp B req).
Proof.
  intros H w. unfold req_isotp. destruct (isotp_request B req w). cbn [snd].
  now constructor.
Qed.

Lemma emits_get_dtcs (status_mask : Z) :
  (forall req r, P (Requested req r)) -> emits P (get_dtcs B status_mask).
Proof.
  intros H. unfold get_dtcs. apply emits_for_return. intros tries _.
  apply emits_bind; [now apply emits_req|].
  intros [resp|]; [|apply emits_ret].
  apply emits_bind; [apply emits_lift|]. intros dtcs. apply emits_ret.
Qed.

(** The burst and the settle wait for a frame all of whose events are fine. *)
Lemma emits_burst (message : can_message) :
  P (Sent message) -> (forall ms, P (Slept ms)) ->
  emits P (for_ (range 16) (fun _ => send B message ;; sleep B 10)).
Proof.
  intros Hsent Hslept. apply emits_for. intros _ _.
  apply emits_bind; [now apply emits_send|]. intros _. now apply emits_sleep.
Qed.

End Emits.

Lemma can_Message_ok (arb : Z) (payload : list Z) (ext : bool) (m : can_message) :
  can_Message arb payload ext = Ok m ->
  m = mk_message arb payload ext /\ forallb is_byte payload = true.
Proof.
  unfold can_Message. destruct (forallb is_byte payload); [|discriminate].
  intros [= <-]. now split.
Qed.

Lemma list_set_length (l : list Z) (i : nat) (v : Z) :
  List.length (list_set l i v) = List.length l.
Proof.
  revert i. induction l as [|x l IH]; intros i; [now destruct i|].
  destruct i; cbn [list_set List.length]; [reflexivity | now rewrite IH].
Qed.

Lemma list_set_in (l : list Z) (i : nat) (v x : Z) :
  In x (list_set l i v) -> x = v \/ In x l.
Proof.
  revert i. induction l as [|y l IH]; intros i H; [now destruct i|].
  destruct i; cbn [list_set] in H.
  - destruct H as [<- | H]; [now left | right; now right].
  - destruct H as [<- | H]; [right; now left|].
    destruct (IH _ H) as [-> | Hin]; [now left | right; now right].
Qed.

Lemma py_setitem_ok (l l' : list Z) (i v : Z) :
  py_setitem l i v = Ok l' ->
  List.length l' = List.length l /\ forall x, In x l' -> x = v \/ In x l.
Proof.
  unfold py_setitem. destruct (_ && _); [|discriminate].
  intros [= <-]. split; [apply list_set_length|]. intros x. apply list_set_in.
Qed.

Section Frames.

Variable B : Bus.
Variable message_str : can_message -> string.






(** The events of a probe of the junk search, for any property that holds of
    its frame and of everything that is not a frame. *)
Lemma search_probe_emits (P : event -> Prop) (base offs byte : Z) :
  (forall payload,
      List.length payload = 8%nat ->
      (forall x, In x payload -> x = byte \/ x = base) ->
      P (Sent (mk_message 0x3FD payload false))) ->
  (forall ms, P (Slept ms)) -> (forall req r, P (Requested req r)) ->
  (forall line, P (Printed line)) ->
  emits P (search_probe B message_str base offs byte).
Proof.
  intros Hsent Hslept Hreq Hprint. unfold search_probe.
  apply emits_bind_lift. intros payload Hset.
  apply py_setitem_ok in Hset. destruct Hset as [Hlen Hin].
  apply emits_bind_lift. intros message Hmsg.
  apply can_Message_ok in Hmsg. destruct Hmsg as [-> _].
  assert (Hframe : P (Sent (mk_message 0x3FD payload false))).
  { apply Hsent; [exact Hlen|]. intros x Hx.
    destruct (Hin x Hx) as [-> | Hb]; [now left|]. right.
    cbn in Hb. intuition congruence. }
  apply emits_bind; [now apply emits_burst|]. intros _.
  apply emits_bind; [now apply emits_sleep|]. intros _.
  apply emits_bind; [now apply emits_get_dtcs|]. intros dtcs.
  apply emits_bind; [apply emits_lift|]. intros c.
  destruct (py_ne_int c 47); [|apply emits_ret].
  apply emits_bind; [now apply emits_print|]. intros _.
  apply emits_bind; [apply emits_lift|]. intros s. now apply emits_print.
Qed.

Lemma search_valid_checksums_emits (P : event -> Prop) :
  (forall base byte payload,
      0 <= base < 255 -> 0 <= byte < 255 ->
      List.length payload = 8%nat ->
      (forall x, In x payload -> x = byte \/ x = base) ->
      P (Sent (mk_message 0x3FD payload false))) ->
  (forall ms, P (Slept ms)) -> (forall req r, P (Requested req r)) ->
  (forall line, P (Printed line)) ->
  emits P (search_valid_checksums B message_str).
Proof.
  intros Hsent Hslept Hreq Hprint. unfold search_valid_checksums.
  apply emits_for. intros base Hbase. apply in_range_iff in Hbase.
  apply emits_bind; [now apply emits_print|]. intros _.
  apply emits_for. intros offs _.
  apply emits_bind; [now apply emits_print|]. intros _.
  apply emits_for. intros byte Hbyte. apply in_range_iff in Hbyte.
  apply search_probe_emits; auto.
  intros payload Hlen Hin. now apply (Hsent base byte).
Qed.

End Frames.


(** X11: the junk search never sends the byte 0xFF: every frame of every
    run has 8 data bytes, each between 0 and 254, because both of its value
    loops stop at 254. *)
Theorem search_never_sends_ff (B : Bus) (message_str : can_message -> string)
    (w : world B) :
  Forall junk_frame (snd (search_valid_checksums B message_str w)).
Proof.
  apply search_valid_checksums_emits; try (intros; exact I).
  intros base byte payload Hbase Hbyte Hlen Hin. split; [exact Hlen|].
  apply Forall_forall. intros x Hx. destruct (Hin x Hx) as [-> | ->]; assumption.
Qed.

(** * How much a run reads and sends *)

Lemma count_requested_app (ev1 ev2 : list event) :
  count_requested (ev1 ++ ev2) = (count_requested ev1 + count_requested ev2)%nat.
Proof. unfold count_requested. now rewrite filter_app, length_app. Qed.

Lemma count_requested_frames (frames : list can_message) :
  count_requested (frame_events frames) = 0%nat.
Proof.
  induction frames as [|m frames IH]; [reflexivity|].
  change (frame_events (m :: frames)) with ([Sent m; Slept 10] ++ frame_events frames).
  now rewrite count_requested_app, IH.
Qed.

Lemma get_dtcs_request_count (B : Bus) (status_mask : Z) (w : world B) :
  (1 <= count_requested (snd (get_dtcs B status_mask w)) <= 3)%nat.
Proof.
  destruct (get_dtcs_cases B status_mask w)
    as [(k & wk & w' & resp & Hk & Hun & Hresp) | (w3 & Hun)].
  - rewrite (get_dtcs_answered B status_mask w Hk Hun Hresp). cbn [snd].
    destruct k as [|[|[|k]]]; [| | |lia]; cbn; lia.
  - rewrite (get_dtcs_gives_up B status_mask w Hun). cbn. lia.
Qed.

(** X12: the diagnostic reads do nothing on the bus but diagnostic
    requests: [get_dtcs] between one and three of them, [get_supported_dtcs]
    and [hard_reset] exactly one, and [hard_reset] hands back whatever came,
    a timeout included, without raising. *)
Theorem diagnostic_reads_only_request (B : Bus) (status_mask : Z) (w : world B) :
  Forall is_request (snd (get_dtcs B status_mask w))
  /\ (1 <= count_requested (snd (get_dtcs B status_mask w)) <= 3)%nat
  /\ Forall is_request (snd (get_supported_dtcs B w))
  /\ count_requested (snd (get_supported_dtcs B w)) = 1%nat
  /\ (exists r w', hard_reset B w = (Ok r, w', [Requested [0x11; 0x01] r])).
Proof.
  split; [apply emits_get_dtcs; intros; exact I|].
  split; [apply get_dtcs_request_count|].
  assert (Hsup : snd (get_supported_dtcs B w)
                 = [Requested [0x19; 0x0A] (fst (isotp_request B [0x19; 0x0A] w))]).
  { unfold get_supported_dtcs, bind. rewrite req_isotp_run. reflexivity. }
  rewrite Hsup. split; [repeat constructor|]. split; [reflexivity|].
  unfold hard_reset. rewrite req_isotp_run. eauto.
Qed.

Lemma after_frames_fails (B : Bus) (m : can_message) (n : nat) (w : world B) :
  after_frames B (repeat m n) w = None ->
  exists k wk w' e,
    (k < n)%nat /\ after_frames B (repeat m k) w = Some wk
    /\ bus_send B m wk = (Raise e, w').
Proof.
  revert w. induction n as [|n IH]; intros w H; cbn [repeat after_frames] in H.
  - discriminate.
  - destruct (bus_send B m w) as [[[]|e] w'] eqn:E.
    + destruct (IH _ H) as (k & wk & w2 & e & Hk & Hpre & Hsend).
      exists (S k), wk, w2, e. split; [lia|]. split; [|exact Hsend].
      cbn [repeat after_frames]. now rewrite E.
    + exists 0%nat, w, w', e. split; [lia|]. split; [reflexivity | exact E].
Qed.

(** The three ways a run of [verify_checksum] can go, by its events. *)
Lemma verify_checksum_events (B : Bus) (payload : list Z) (w : world B) :
  snd (verify_checksum B payload w) = []
  \/ (exists w16,
        snd (verify_checksum B payload w)
        = frame_events (repeat (mk_message 0x3FD payload false) 16)
          ++ Slept 100 :: snd (get_dtcs B 0x0C (time_sleep B 100 w16)))
  \/ (exists k,
        (k < 16)%nat
        /\ snd (verify_checksum B payload w)
           = frame_events (repeat (mk_message 0x3FD payload false) k)
             ++ [Sent (mk_message 0x3FD payload false)]).
Proof.
  destruct (forallb is_byte payload) eqn:Hbytes.
  - destruct (after_frames B (repeat (mk_message 0x3FD payload false) 16) w)
      as [w16|] eqn:Hsends.
    + right. left. exists w16.
      rewrite (verify_checksum_run B payload w Hbytes Hsends).
      now destruct (get_dtcs B 12 (time_sleep B 100 w16)) as [[dtcs w'] ev].
    + right. right.
      destruct (after_frames_fails _ _ _ _ Hsends) as (k & wk & w' & e & Hk & Hpre & Hsend).
      exists k. split; [exact Hk|].
      now rewrite (verify_checksum_send_raises B payload w Hbytes Hk Hpre Hsend).
  - left. now rewrite verify_checksum_not_bytes.
Qed.

(** X13: no run of [verify_checksum] sends more than 16 frames or makes
    more than 3 requests; all the frames it sends carry its payload; and the
    oracle is read only after a complete burst of 16. *)
Theorem verify_checksum_bounds (B : Bus) (payload : list Z) (w : world B) :
  (count_sent (snd (verify_checksum B payload w)) <= 16)%nat
  /\ (count_requested (snd (verify_checksum B payload w)) <= 3)%nat
  /\ sent_payloads (snd (verify_checksum B payload w))
     = repeat payload (count_sent (snd (verify_checksum B payload w)))
  /\ ((0 < count_requested (snd (verify_checksum B payload w)))%nat ->
      count_sent (snd (verify_checksum B payload w)) = 16%nat).
Proof.
  destruct (verify_checksum_events B payload w) as [E | [(w16 & E) | (k & Hk & E)]];
    rewrite E; clear E.
  - cbn. repeat split; lia.
  - pose proof (get_dtcs_sends_nothing B 0x0C (time_sleep B 100 w16)) as Hnone.
    pose proof (get_dtcs_request_count B 0x0C (time_sleep B 100 w16)) as Hreq.
    set (ev := snd (get_dtcs B 12 (time_sleep B 100 w16))) in *.
    assert (Hsent : sent_payloads
                      (frame_events (repeat (mk_message 0x3FD payload false) 16)
                       ++ Slept 100 :: ev) = repeat payload 16).
    { rewrite sent_payloads_app, sent_payloads_frames.
      change (Slept 100 :: ev) with ([Slept 100] ++ ev).
      rewrite sent_payloads_app, Hnone. cbn [sent_payloads flat_map app].
      rewrite app_nil_r, map_repeat. reflexivity. }
    assert (Hcount : count_sent
                       (frame_events (repeat (mk_message 0x3FD payload false) 16)
                        ++ Slept 100 :: ev) = 16%nat).
    { unfold count_sent. rewrite Hsent. apply repeat_length. }
    rewrite Hcount. split; [lia|]. split.
    + rewrite count_requested_app, count_requested_frames.
      change (Slept 100 :: ev) with ([Slept 100] ++ ev).
      rewrite count_requested_app. cbn. lia.
    + split; [exact Hsent | reflexivity].
  - assert (Hsent : sent_payloads
                      (frame_events (repeat (mk_message 0x3FD payload false) k)
                       ++ [Sent (mk_message 0x3FD payload false)])
                    = repeat payload (S k)).
    { rewrite sent_payloads_app, sent_payloads_frames, map_repeat.
      cbn [sent_payloads flat_map data app]. now rewrite <- repeat_cons. }
    assert (Hcount : count_sent
                       (frame_events (repeat (mk_message 0x3FD payload false) k)
                        ++ [Sent (mk_message 0x3FD payload false)]) = S k).
    { unfold count_sent. rewrite Hsent. apply repeat_length. }
    rewrite Hcount, count_requested_app, count_requested_frames.
    split; [lia|]. split; [cbn; lia|]. split; [exact Hsent|]. cbn. lia.
Qed.

Lemma verify_checksum_bounds_witness :
  count_sent (snd (verify_checksum scenario_bus [0x37; 0x01; 0x02; 0x03; 0x04] double_init))
  = 16%nat.
Proof.
  apply (proj2 (proj2 (proj2 (verify_checksum_bounds scenario_bus
                                [0x37; 0x01; 0x02; 0x03; 0x04] double_init)))).
  vm_compute. lia.
Defined.

(** * Further properties of the counter search and of the junk search *)

(** X14: when the decoded table has no entry for e09402, a trial of the
    counter search prints the line naming the hypothesis and then fails on
    formatting the default "missing" as a number; the error ends the
    search. *)
Theorem counter_trial_missing_dtc (B : Bus) (byte : Z) (shape : Z * Z)
    (w wc w' : world B) (table : dict) (ev : list event) :
  In (byte, shape) counter_hypotheses ->
  after_frames B (counter_messages byte shape) w = Some wc ->
  get_dtcs B 0x0C (time_sleep B 100 wc) = (Ok (Some table), w', ev) ->
  dict_lookup "e09402" table = None ->
  counter_trial B byte shape w
  = (Raise (ValueError "Unknown format code 'x' for object of type 'str'"), w',
     frame_events (counter_messages byte shape)
     ++ Slept 100 :: ev
     ++ [Printed ("Counter byte " ++ format_dec byte ++ " mask "
                  ++ format_hex (Z.shiftl (fst shape) (snd shape)))]).
Proof.
  intros Hh Hsends Hdtcs Hmissing.
  rewrite (counter_trial_run B w Hh Hsends), Hdtcs.
  cbn [counter_outcome]. rewrite Hmissing. reflexivity.
Qed.

Lemma counter_trial_missing_dtc_witness :
  exists w' ev,
    counter_trial stubborn_bus 0 lower_nibble double_init
    = (Raise (ValueError "Unknown format code 'x' for object of type 'str'"), w',
       frame_events (counter_messages 0 lower_nibble)
       ++ Slept 100 :: ev ++ [Printed "Counter byte 0 mask 0xf"]).
Proof.
  eexists. eexists.
  eapply (@counter_trial_missing_dtc stubborn_bus 0 lower_nibble double_init).
  - cbn. tauto.
  - vm_compute. reflexivity.
  - vm_compute. reflexivity.
  - reflexivity.
Defined.

Section CompleteRuns.

Variable B : Bus.
Hypothesis Hsend : forall m w, fst (bus_send B m w) = Ok tt.

Lemma after_frames_total (frames : list can_message) (w : world B) :
  exists wc, after_frames B frames w = Some wc.
Proof.
  revert w. induction frames as [|m frames IH]; intros w; cbn [after_frames].
  - now exists w.
  - specialize (Hsend m w). destruct (bus_send B m w) as [[[]|e] w1]; [|discriminate].
    apply IH.
Qed.

Lemma for_completes {A : Type} (f : A -> list (list Z)) (l : list A)
    (body : A -> io B unit) :
  (forall x, In x l -> forall w, exists w' ev,
        body x w = (Ok tt, w', ev) /\ sent_payloads ev = f x) ->
  forall w, exists w' ev,
    for_ l body w = (Ok tt, w', ev) /\ sent_payloads ev = flat_map f l.
Proof.
  induction l as [|x l IH]; intros H w; cbn [for_ flat_map].
  - exists w, []. now split.
  - destruct (H x (or_introl eq_refl) w) as (w1 & ev1 & E1 & S1).
    destruct (IH (fun y Hy => H y (or_intror Hy)) w1) as (w2 & ev2 & E2 & S2).
    exists w2, (ev1 ++ ev2). split.
    + erewrite bind_ok by exact E1. now rewrite E2.
    + now rewrite sent_payloads_app, S1, S2.
Qed.

Hypothesis Hdtc : forall w, exists table status,
  fst (fst (get_dtcs B 0x0C w)) = Ok (Some table)
  /\ dict_lookup "e09402" table = Some status.

Lemma counter_trial_completes (byte : Z) (shape : Z * Z) (w : world B) :
  In (byte, shape) counter_hypotheses ->
  exists w' ev,
    counter_trial B byte shape w = (Ok tt, w', ev)
    /\ sent_payloads ev = map data (counter_messages byte shape).
Proof.
  intros Hh. destruct (after_frames_total (counter_messages byte shape) w) as [wc Hwc].
  rewrite (counter_trial_run B w Hh Hwc).
  destruct (Hdtc (time_sleep B 100 wc)) as (table & status & Hres & Hstatus).
  pose proof (get_dtcs_sends_nothing B 0x0C (time_sleep B 100 wc)) as Hnone.
  destruct (get_dtcs B 12 (time_sleep B 100 wc)) as [[dtcs w'] ev].
  cbn [fst snd] in Hres, Hnone. subst dtcs.
  cbn [counter_outcome]. rewrite Hstatus. cbn [fst snd].
  eexists. eexists. split; [reflexivity|].
  rewrite sent_payloads_app, sent_payloads_frames.
  change (Slept 100 :: ev ++ ?r) with ([Slept 100] ++ ev ++ r).
  rewrite !sent_payloads_app, Hnone.
  destruct (status =? 47); cbn; now rewrite app_nil_r.
Qed.

Lemma find_counter_fields_completes (w : world B) :
  exists w' ev,
    find_counter_fields B w = (Ok tt, w', ev)
    /\ sent_payloads ev
       = flat_map (fun h => map data (counter_messages (fst h) (snd h)))
           counter_hypotheses.
Proof.
  rewrite find_counter_fields_flat.
  apply (for_completes (fun h => map data (counter_messages (fst h) (snd h)))).
  intros [byte shape] Hin w0. now apply counter_trial_completes.
Qed.

End CompleteRuns.

(** X15: on a bus whose sends never raise and with a gear selector that
    always answers with a table listing e09402, a run of
    [find_counter_fields] goes through all twelve hypotheses and returns: the
    frames on the bus are the cycles of the hypotheses one after the other,
    4608 frames in all. *)
Theorem find_counter_fields_complete_run (B : Bus) (w : world B) :
  (forall m w0, fst (bus_send B m w0) = Ok tt) ->
  (forall w0, exists table status,
        fst (fst (get_dtcs B 0x0C w0)) = Ok (Some table)
        /\ dict_lookup "e09402" table = Some status) ->
  fst (fst (find_counter_fields B w)) = Ok tt
  /\ sent_payloads (snd (find_counter_fields B w))
     = flat_map (fun h => map data (counter_messages (fst h) (snd h)))
         counter_hypotheses
  /\ count_sent (snd (find_counter_fields B w)) = 4608%nat.
Proof.
  intros Hsend Hdtc.
  destruct (find_counter_fields_completes B Hsend Hdtc w) as (w' & ev & E & Hsent).
  rewrite E. cbn [fst snd]. split; [reflexivity|]. split; [exact Hsent|].
  unfold count_sent. rewrite Hsent. vm_compute. reflexivity.
Qed.

Lemma find_counter_fields_complete_run_witness :
  count_sent (snd (find_counter_fields counter_bus double_init)) = 4608%nat.
Proof.
  apply (find_counter_fields_complete_run counter_bus double_init).
  - intros m w0. reflexivity.
  - intros [last s n].
    exists [("e09402", match last with
                       | Some (_ :: _ :: 0xf0 :: _) => 0x2c
                       | _ => 0x2f
                       end)].
    eexists. split; reflexivity.
Defined.

Section JunkSearch.

Variable B : Bus.
Variable message_str : can_message -> string.

Lemma junk_payload_set (base offs byte : Z) :
  0 <= offs < 8 ->
  py_setitem (list_times [base] 8) offs byte = Ok (junk_payload base offs byte).
Proof.
  intros H.
  assert (E : offs = 0 \/ offs = 1 \/ offs = 2 \/ offs = 3 \/ offs = 4 \/ offs = 5
              \/ offs = 6 \/ offs = 7) by lia.
  repeat (destruct E as [-> | E]; [reflexivity|]). subst offs. reflexivity.
Qed.

Lemma junk_payload_bytes (base offs byte : Z) :
  is_byte base = true -> is_byte byte = true ->
  forallb is_byte (junk_payload base offs byte) = true.
Proof.
  intros Hbase Hbyte. apply forallb_forall. intros x Hx.
  unfold junk_payload in Hx. apply list_set_in in Hx.
  destruct Hx as [-> | Hx]; [exact Hbyte|].
  cbn in Hx. intuition congruence.
Qed.

(** A probe of the junk search whose 16 sends all succeed. *)
Lemma search_probe_run (base offs byte : Z) (w w16 : world B) :
  is_byte base = true -> is_byte byte = true -> 0 <= offs < 8 ->
  after_frames B (repeat (mk_message 0x3FD (junk_payload base offs byte) false) 16) w
  = Some w16 ->
  search_probe B message_str base offs byte w
  = (let line := ("Message "
                  ++ message_str (mk_message 0x3FD (junk_payload base offs byte) false))%string in
     let '(dtcs, w', ev) := get_dtcs B 0x0C (time_sleep B 100 w16) in
     (fst (probe_outcome line dtcs), w',
      frame_events (repeat (mk_message 0x3FD (junk_payload base offs byte) false) 16)
      ++ Slept 100 :: ev ++ snd (probe_outcome line dtcs))).
Proof.
  intros Hbase Hbyte Hoffs Hsends. unfold search_probe.
  rewrite junk_payload_set by assumption. rewrite bind_lift_ok.
  unfold can_Message. rewrite junk_payload_bytes by assumption. rewrite bind_lift_ok.
  erewrite bind_ok by (apply burst_ok; eassumption).
  unfold bind at 1. unfold sleep at 1. unfold bind at 1. cbv zeta.
  destruct (get_dtcs B 12 (time_sleep B 100 w16)) as [[[dtcs|e] w'] ev].
  2:{ cbn [probe_outcome fst snd]. now rewrite app_nil_r. }
  destruct dtcs as [table|].
  2:{ cbn [probe_outcome fst snd]. unfold bind, lift. cbn [py_get].
      now rewrite !app_nil_r. }
  unfold bind at 1. unfold lift at 1. cbn [py_get probe_outcome].
  destruct (dict_lookup "e09404" table) as [status|].
  - unfold py_ne_int, py_eq_int. destruct (status =? 47); cbn [negb fst snd].
    + unfold ret. now rewrite !app_nil_r.
    + unfold bind, print, lift, format_hex_val. cbn [fst snd app]. reflexivity.
  - cbn [py_ne_int py_eq_int negb fst snd].
    unfold bind, print, lift, format_hex_val. cbn [fst snd app]. reflexivity.
Qed.

End JunkSearch.

(** X16: a probe of the junk search sends its 8-byte payload, all bytes
    [base] but the one at [offs], 16 times, waits, reads the DTCs and prints
    the frame for every status of e09404 other than 0x2f, the status 0x2e of
    an accepted checksum included.  When the table has no entry for e09404
    it prints the frame and then fails on formatting the default. *)
Theorem search_probe_report (B : Bus) (message_str : can_message -> string)
    (base offs byte : Z) (w w16 w' : world B) (table : dict) (ev : list event) :
  is_byte base = true -> is_byte byte = true -> 0 <= offs < 8 ->
  after_frames B (repeat (mk_message 0x3FD (junk_payload base offs byte) false) 16) w
  = Some w16 ->
  get_dtcs B 0x0C (time_sleep B 100 w16) = (Ok (Some table), w', ev) ->
  (forall status,
      dict_lookup "e09404" table = Some status ->
      search_probe B message_str base offs byte w
      = (Ok tt, w',
         frame_events (repeat (mk_message 0x3FD (junk_payload base offs byte) false) 16)
         ++ Slept 100 :: ev
         ++ (if status =? 0x2f then []
             else [Printed ("Message " ++ message_str
                              (mk_message 0x3FD (junk_payload base offs byte) false));
                   Printed ("   E09404 -> " ++ format_hex status)])))
  /\ (dict_lookup "e09404" table = None ->
      search_probe B message_str base offs byte w
      = (Raise (ValueError "Unknown format code 'x' for object of type 'str'"), w',
         frame_events (repeat (mk_message 0x3FD (junk_payload base offs byte) false) 16)
         ++ Slept 100 :: ev
         ++ [Printed ("Message " ++ message_str
                        (mk_message 0x3FD (junk_payload base offs byte) false))])).
Proof.
  intros Hbase Hbyte Hoffs Hsends Hdtcs.
  rewrite (@search_probe_run B message_str base offs byte w w16 Hbase Hbyte Hoffs Hsends).
  cbv zeta. rewrite Hdtcs. cbn [probe_outcome].
  split; [intros status Hstatus | intros Hstatus]; now rewrite Hstatus.
Qed.

Lemma search_probe_report_witness :
  exists w' ev,
    search_probe stubborn_bus (fun _ => "frame") 0x12 1 0x34 double_init
    = (Ok tt, w',
       frame_events
         (repeat (mk_message 0x3FD (junk_payload 0x12 1 0x34) false) 16)
       ++ Slept 100 :: ev ++ []).
Proof.
  edestruct (@search_probe_report stubborn_bus (fun _ => "frame") 0x12 1 0x34
               double_init) as [Hreport _].
  - reflexivity.
  - reflexivity.
  - lia.
  - vm_compute. reflexivity.
  - vm_compute. reflexivity.
  - eexists. eexists. apply (Hreport 0x2f). reflexivity.
Defined.

(** * The search against a gear selector that checks the checksum *)

Lemma crc_bus_burst (payload : list Z) (w : double_state) :
  after_frames crc_bus (repeat (mk_message 0x3FD payload false) 16) w
  = Some (mk_double (Some payload) (16 + sends w) (requests w)).
Proof. destruct w as [last s n]. reflexivity. Qed.

(** On that gear selector [verify_checksum] answers whether the first byte of
    the payload is the checksum of the rest. *)
Lemma verify_on_crc_bus (payload : list Z) (w : double_state) :
  forallb is_byte payload = true ->
  exists w' ev,
    verify_checksum crc_bus payload w = (Ok (frame_has_crc (Some payload)), w', ev).
Proof.
  intros Hbytes.
  rewrite (@verify_checksum_run crc_bus payload w _ Hbytes (crc_bus_burst payload w)).
  set (w16 := mk_double (Some payload) (16 + sends w) (requests w)).
  assert (Hread : get_dtcs crc_bus 0x0C (time_sleep crc_bus 100 w16)
                  = (try dtcs <- decode_dtcdata
                                   (Some (one_dtc_response 0xe0 0x94 0x04
                                            (if frame_has_crc (Some payload)
                                             then 0x2e else 0x2f)));
                     Ok (Some dtcs),
                     mk_double (Some payload) (16 + sends w) (S (requests w)),
                     [Requested [0x19; 0x02; 0x0C]
                        (Some (one_dtc_response 0xe0 0x94 0x04
                                 (if frame_has_crc (Some payload) then 0x2e else 0x2f)))])).
  { exact (@get_dtcs_answered crc_bus 0x0C w16 0 w16 _ _
             (Nat.lt_0_succ 2) eq_refl eq_refl). }
  rewrite Hread.
  destruct (frame_has_crc (Some payload)); eexists; eexists; reflexivity.
Qed.

Lemma rejected_on_crc_bus (body cands : list Z) (w : double_state) :
  forallb is_byte body = true ->
  (forall c, In c cands -> is_byte c = true /\ c <> bmw_3fd_crc body) ->
  exists w1 ev1, rejected crc_bus body cands w = Some (w1, ev1).
Proof.
  intros Hbody. revert w. induction cands as [|c cands IH]; intros w Hcands.
  - exists w, []. reflexivity.
  - destruct (Hcands c (or_introl eq_refl)) as [Hc Hne].
    destruct (@verify_on_crc_bus (c :: body) w) as (w' & ev & E).
    { cbn [forallb]. now rewrite Hc, Hbody. }
    destruct (IH w' (fun c' H' => Hcands c' (or_intror H'))) as (w1 & ev1 & E1).
    exists w1, (ev ++ ev1). cbn [rejected]. rewrite E. cbn [frame_has_crc].
    apply Z.eqb_neq in Hne. rewrite Hne. now rewrite E1.
Qed.

(** X17: against a gear selector that accepts exactly the frames whose first
    byte is the [bmw_3fd_crc] of the rest, [find_checksum] returns the
    [bmw_3fd_crc] of the body it is given, and [confirm_working_checksum]
    answers [True]. *)
Theorem find_checksum_recovers_crc (body : list Z) (w : double_state) :
  len body = 4 ->
  forallb is_byte body = true ->
  fst (fst (find_checksum crc_bus body w)) = Ok (bmw_3fd_crc body)
  /\ fst (fst (confirm_working_checksum crc_bus body w)) = Ok true.
Proof.
  intros Hlen Hbody.
  pose proof (land_byte (crc_calc crc_xor_output_3fd body)) as Hcrc.
  fold (bmw_3fd_crc body) in Hcrc.
  assert (Hcrcb : is_byte (bmw_3fd_crc body) = true) by apply bmw_3fd_crc_is_byte.
  split.
  - destruct (@rejected_on_crc_bus body (range (bmw_3fd_crc body)) w Hbody)
      as (w1 & ev1 & Hrej).
    { intros c Hc. apply in_range_iff in Hc. split; [|lia].
      unfold is_byte. apply andb_true_intro. split; [apply Z.leb_le | apply Z.ltb_lt]; lia. }
    destruct (@verify_on_crc_bus (bmw_3fd_crc body :: body) w1) as (w2 & ev2 & Hvalid).
    { cbn [forallb]. now rewrite Hcrcb, Hbody. }
    cbn [frame_has_crc] in Hvalid. rewrite Z.eqb_refl in Hvalid.
    now rewrite (@find_checksum_found crc_bus body _ w w1 w2 ev1 ev2 Hlen Hcrc Hrej Hvalid).
  - unfold confirm_working_checksum. cbn [app].
    destruct (@verify_on_crc_bus (bmw_3fd_crc body :: body) w) as (w2 & ev2 & Hvalid).
    { cbn [forallb]. now rewrite Hcrcb, Hbody. }
    rewrite Hvalid. cbn [fst frame_has_crc]. now rewrite Z.eqb_refl.
Qed.

Lemma find_checksum_recovers_crc_witness :
  fst (fst (find_checksum crc_bus [0x01; 0x02; 0x03; 0x04] double_init))
  = Ok (bmw_3fd_crc [0x01; 0x02; 0x03; 0x04]).
Proof.
  exact (proj1 (@find_checksum_recovers_crc [0x01; 0x02; 0x03; 0x04] double_init
                  eq_refl eq_refl)).
Defined.

Lemma verify_checksum_sent (B : Bus) (payload : list Z) (w : world B) :
  exists k, (k <= 16)%nat /\ sent_payloads (snd (verify_checksum B payload w)) = repeat payload k.
Proof.
  destruct (verify_checksum_events B payload w) as [E | [(w16 & E) | (k & Hk & E)]];
    rewrite E; clear E.
  - exists 0%nat. split; [lia | reflexivity].
  - exists 16%nat. split; [lia|].
    rewrite sent_payloads_app, sent_payloads_frames.
    change (Slept 100 :: ?ev) with ([Slept 100] ++ ev).
    rewrite sent_payloads_app, get_dtcs_sends_nothing. cbn [sent_payloads flat_map app].
    now rewrite app_nil_r, map_repeat.
  - exists (S k). split; [lia|].
    rewrite sent_payloads_app, sent_payloads_frames, map_repeat.
    cbn [sent_payloads flat_map data app]. now rewrite <- repeat_cons.
Qed.

(** X18: a probe that raises ends [find_checksum] with its error: the
    candidates after it are never put on the bus, and the error "No valid
    checksum found..." is not the one reported. *)
Theorem find_checksum_stops_at_error (B : Bus) (message : list Z) (c : Z)
    (w w1 w2 : world B) (ev1 ev2 : list event) (e : exn) :
  len message = 4 -> 0 <= c < 256 ->
  rejected B message (range c) w = Some (w1, ev1) ->
  verify_checksum B (c :: message) w1 = (Raise e, w2, ev2) ->
  find_checksum B message w = (Raise e, w2, ev1 ++ ev2)
  /\ exists k, (k <= 16)%nat
       /\ sent_payloads (ev1 ++ ev2)
          = flat_map (fun c' => repeat (c' :: message) 16) (range c)
            ++ repeat (c :: message) k.
Proof.
  intros Hlen Hc Hrej Hraise. split.
  - now apply find_checksum_aborts with (c := c) (w1 := w1).
  - destruct (verify_checksum_sent B (c :: message) w1) as (k & Hk & Hsent).
    rewrite Hraise in Hsent. cbn [snd] in Hsent.
    exists k. split; [exact Hk|].
    now rewrite sent_payloads_app, (rejected_sent _ _ _ _ Hrej), Hsent.
Qed.

Lemma find_checksum_stops_at_error_witness :
  exists w' ev,
    find_checksum silent_bus [0x01; 0x02; 0x03; 0x04] double_init
    = (Raise (AttributeError "'NoneType' object has no attribute 'get'"), w', ev).
Proof.
  edestruct (@find_checksum_stops_at_error silent_bus [0x01; 0x02; 0x03; 0x04] 0
               double_init) as [Hrun _].
  - reflexivity.
  - lia.
  - reflexivity.
  - vm_compute. reflexivity.
  - eexists. eexists. exact Hrun.
Defined.

(** * The counter of the status message *)

Lemma land_nibble (a : Z) : Z.land a 0x0F = a mod 16.
Proof. change 0x0F with (Z.ones 4). now rewrite Z.land_ones by lia. Qed.

Lemma gws_counter_succ (n : nat) :
  gws_counter (S n) = gws_next_counter (gws_counter n).
Proof. reflexivity. Qed.

(** After [n] turns the counter has skipped one value in every 16. *)
Lemma gws_counter_shape (n : nat) :
  exists q r,
    0 <= q /\ 0 <= r < 15
    /\ Z.of_nat n = 15 * q + r /\ gws_counter n = 16 * q + r.
Proof.
  induction n as [|n (q & r & Hq & Hr & Hn & Hc)].
  - exists 0, 0. cbn. lia.
  - rewrite gws_counter_succ, Hc.
    unfold gws_next_counter. cbv zeta. rewrite land_nibble.
    replace ((16 * q + r + 1) mod 16) with (r + 1)
      by (apply Z.mod_unique with q; lia).
    destruct (r + 1 =? 15) eqn:E.
    + apply Z.eqb_eq in E. exists (q + 1), 0. lia.
    + apply Z.eqb_neq in E. exists q, (r + 1). lia.
Qed.

(** X19: the counter of the status message never has 0xF in its low
    nibble.  At the start of turn [n] it is [n + n / 15], so the counter
    byte of the frame runs through the 240 values whose low nibble is not
    0xF and repeats every 240 turns. *)
Theorem gws_counter_skips_f (n : nat) (status_bytes : list Z) :
  gws_counter n = Z.of_nat n + Z.of_nat n / 15
  /\ Z.land (gws_counter n) 0x0F <> 0xF
  /\ gws_counter (n + 240) = gws_counter n + 256
  /\ nth 1 (gws_payload (gws_counter n) status_bytes) 0
     = Z.land (gws_counter n) 0xFF
  /\ Z.land (nth 1 (gws_payload (gws_counter n) status_bytes) 0) 0x0F <> 0xF.
Proof.
  destruct (gws_counter_shape n) as (q & r & Hq & Hr & Hn & Hc).
  assert (Hdiv : Z.of_nat n / 15 = q) by (symmetry; apply Z.div_unique with r; lia).
  assert (Hclosed : gws_counter n = Z.of_nat n + Z.of_nat n / 15) by lia.
  assert (Hnib : Z.land (gws_counter n) 0x0F <> 0xF).
  { rewrite land_nibble, Hc.
    replace ((16 * q + r) mod 16) with r by (apply Z.mod_unique with q; lia). lia. }
  split; [exact Hclosed|]. split; [exact Hnib|]. split; [|split].
  - destruct (gws_counter_shape (n + 240)) as (q' & r' & Hq' & Hr' & Hn' & Hc').
    rewrite Nat2Z.inj_add in Hn'. change (Z.of_nat 240) with 240 in Hn'. lia.
  - reflexivity.
  - cbn [gws_payload app nth].
    replace (Z.land (Z.land (gws_counter n) 0xFF) 0x0F) with (Z.land (gws_counter n) 0x0F);
      [exact Hnib|].
    rewrite <- Z.land_assoc. reflexivity.
Qed.

Example gws_counter_fifteen : map gws_counter [14; 15; 16; 29; 30]%nat = [14; 16; 17; 30; 32].
Proof. reflexivity. Qed.

(** * The identifiers of a diagnostic session *)



(** * What a returned checksum means *)

Lemma search_returns (B : Bus) (message : list Z) (k : nat) :
  forall (s : nat) (w w' : world B) (c : Z) (ev : list event),
  for_return (map Z.of_nat (seq s k)) (try_candidate B message) w = (Ok (Some c), w', ev) ->
  exists (j : nat) (w1 : world B) (ev1 ev2 : list event),
    (s <= j < s + k)%nat /\ c = Z.of_nat j
    /\ rejected B message (map Z.of_nat (seq s (j - s))) w = Some (w1, ev1)
    /\ verify_checksum B (c :: message) w1 = (Ok true, w', ev2)
    /\ ev = ev1 ++ ev2.
Proof.
  induction k as [|k IH]; intros s w w' c ev H; cbn [seq map for_return] in H.
  - discriminate.
  - unfold bind at 1 in H. unfold try_candidate at 1 in H. unfold bind at 1 in H.
    cbn [app] in H.
    destruct (verify_checksum B (Z.of_nat s :: message) w) as [[[[|]|e] w1] ev1] eqn:E;
      cbn [ret] in H.
    + injection H as <- <- <-.
      exists s, w, [], ev1. rewrite Nat.sub_diag. cbn [seq map rejected app].
      repeat split; try lia; [exact E | now rewrite !app_nil_r].
    + destruct (for_return (map Z.of_nat (seq (S s) k)) (try_candidate B message) w1)
        as [[r w2] ev2] eqn:E2.
      unfold ret in H. cbn [app] in H.
      assert (Hr : r = Ok (Some c) /\ w2 = w' /\ ev = (ev1 ++ []) ++ ev2)
        by (split; [|split]; congruence).
      destruct Hr as (-> & -> & ->).
      destruct (IH _ _ _ _ _ E2) as (j & w3 & ev3 & ev4 & Hj & -> & Hrej & Hvalid & ->).
      exists j, w3, (ev1 ++ ev3), ev4.
      split; [lia|]. split; [reflexivity|]. split; [|split; [exact Hvalid|]].
      * replace (j - s)%nat with (S (j - S s)) by lia.
        cbn [seq map rejected]. rewrite E, Hrej. reflexivity.
      * now rewrite app_nil_r, app_assoc.
    + discriminate.
Qed.

(** X21: [find_checksum] only returns what [verify_checksum] accepted: when
    it returns [c], then [c] is a byte, every smaller candidate was probed
    and turned down, and the last probe of the run found [c] valid.  This
    holds on any bus and for a body of any length. *)
Theorem find_checksum_sound (B : Bus) (message : list Z) (w w' : world B)
    (c : Z) (ev : list event) :
  find_checksum B message w = (Ok c, w', ev) ->
  0 <= c < 256
  /\ exists (w1 : world B) (ev1 ev2 : list event),
       rejected B message (range c) w = Some (w1, ev1)
       /\ verify_checksum B (c :: message) w1 = (Ok true, w', ev2)
       /\ sent_payloads ev
          = flat_map (fun c' => repeat (c' :: message) 16) (range c)
            ++ repeat (c :: message) 16.
Proof.
  intros H. rewrite find_checksum_search in H.
  destruct (for_return (range 256) (try_candidate B message) w) as [[r w2] ev0] eqn:E.
  assert (Hr : r = Ok (Some c) /\ w2 = w'
               /\ ev = (if len message =? 4 then []
                        else [Printed "WARNING: Expected 4 byte message"]) ++ ev0).
  { destruct r as [[c0|]|e]; cbn [search_result] in H;
      (split; [|split]); congruence. }
  destruct Hr as (-> & -> & ->).
  destruct (@search_returns B message 256 0 w w' c ev0 E)
    as (j & w1 & ev1 & ev2 & Hj & -> & Hrej & Hvalid & ->).
  rewrite Nat.sub_0_r in Hrej. rewrite <- range_of_nat in Hrej.
  split; [lia|]. exists w1, ev1, ev2.
  split; [exact Hrej|]. split; [exact Hvalid|].
  rewrite !sent_payloads_app, (rejected_sent _ _ _ _ Hrej).
  rewrite (verify_checksum_returns _ _ _ Hvalid).
  now destruct (len message =? 4).
Qed.

Lemma find_checksum_sound_witness :
  exists w1 ev1 ev2,
    rejected scenario_bus [0x01; 0x02; 0x03; 0x04] (range 0x37) double_init = Some (w1, ev1)
    /\ verify_checksum scenario_bus [0x37; 0x01; 0x02; 0x03; 0x04] w1
       = (Ok true, mk_double (Some [0x37; 0x01; 0x02; 0x03; 0x04]) 896 56, ev2).
Proof.
  edestruct (@find_checksum_sound scenario_bus [0x01; 0x02; 0x03; 0x04] double_init)
    as (_ & w1 & ev1 & ev2 & Hrej & Hvalid & _).
  - vm_compute. reflexivity.
  - exists w1, ev1, ev2. split; [exact Hrej | exact Hvalid].
Defined.
